(** * Antbox: permission guard, node orchestrator and manual action runs

    A shallow embedding of [AntboxService] (application/antbox_service.ts)
    and of [ActionService.run] (application/action_service.ts), followed by
    [InMemoryNodeRepository], the built-in action [move_to_folder] and the
    HTTP handlers of the node and action routers.

    - Promises are modelled by the value they resolve to; a rejected promise
      (a [throw] inside an [async] method) is the [Thrown] outcome.
    - [Either<L,R>] is the inductive [Either]; the source builds its values
      with [left(..)] and [right(..)], here [Left] and [Right].
    - The node store behind [nodeService] and the event bus behind
      [DomainEvents.notify] are threaded explicitly through a [World]. *)

From Stdlib Require Import String Ascii List Bool NArith ZArith Lia.
Import ListNotations.
Local Open Scope string_scope.
Local Open Scope list_scope.

Set Implicit Arguments.

(* ------------------------------------------------------------------ *)
(** ** Shared values: [Either], errors, JavaScript helpers             *)
(* ------------------------------------------------------------------ *)

Inductive Either (L R : Type) : Type :=
| Left (value : L)
| Right (value : R).
Arguments Left {L R} value.
Arguments Right {L R} value.

Definition isLeft {L R} (e : Either L R) : bool :=
  match e with Left _ => true | Right _ => false end.

Definition isRight {L R} (e : Either L R) : bool :=
  match e with Left _ => false | Right _ => true end.

(** [AntboxError] and the subclasses the orchestrator builds or forwards.
    [OtherError] stands for any further subclass a collaborator may return
    (error code and message). *)
Inductive AntboxError : Type :=
| ForbiddenError
| BadRequestError (message : string)
| NodeNotFoundError (uuid : string)
| OtherError (errorCode message : string).

(** [Array.prototype.includes] for arrays whose elements are compared by
    value (strings, string-literal unions). *)
Definition includes {A} (eqb : A -> A -> bool) (xs : list A) (x : A) : bool :=
  existsb (eqb x) xs.

(** Truthiness of a [string | undefined] value, as tested by [if (v)] :
    [undefined] and the empty string are falsy. *)
Definition truthy (v : option string) : bool :=
  match v with
  | None => false
  | Some s => negb (s =? "")
  end.

(** [v ?? d] on a [string | undefined] value. *)
Definition nullish (v : option string) (d : string) : string :=
  match v with
  | None => d
  | Some s => s
  end.

(** [v === c] where [v] is [string | undefined] and [c] a string. *)
Definition strictEq (v : option string) (c : string) : bool :=
  match v with
  | None => false
  | Some s => s =? c
  end.

(* ------------------------------------------------------------------ *)
(** ** Data model                                                      *)
(* ------------------------------------------------------------------ *)

(** [type Permission = "Read" | "Write" | "Export"]. *)
Inductive Permission : Type := Read | Write | Export.

Definition Permission_eqb (a b : Permission) : bool :=
  match a, b with
  | Read, Read | Write, Write | Export, Export => true
  | _, _ => false
  end.

(** Modelled from the spec: the [Permissions] type of domain/nodes/node.ts
    is not among the sources. Section 3 gives the permission set four
    capability sets; the guard only ever reads [anonymous], [group] and
    [authenticated]. *)
Module Permissions.
Record t : Type := mk {
    owner : list Permission;
    group : list Permission;
    authenticated : list Permission;
    anonymous : list Permission
  }.
End Permissions.

(** Modelled from the spec: the declaration of the node variants is not
    among the sources; section 3 lists them. *)
Inductive Variant : Type := FileV | FolderV | MetanodeV | SmartFolderV.

(** Modelled from the spec: the [Node] class (domain/nodes/node.ts) is not
    among the sources; these are the fields of section 3. [FolderNode] is
    the same record with [variant = FolderV]. *)
Module Node.
Record t : Type := mk {
    uuid : string;
    title : string;
    parent : string;
    owner : string;
    group : string;
    permissions : Permissions.t;
    mimetype : string;
    variant : Variant
  }.

Definition with_permissions (n : t) (ps : Permissions.t) : t :=
    mk (uuid n) (title n) (parent n) (owner n) (group n) ps
       (mimetype n) (variant n).
End Node.

(** [Partial<Node>]: every field may be absent. *)
Module Partial.
Record t : Type := mk {
    uuid : option string;
    title : option string;
    parent : option string;
    owner : option string;
    group : option string;
    permissions : option Permissions.t;
    mimetype : option string
  }.

Definition empty : t := mk None None None None None None None.
End Partial.

(** [UserPrincipal]: the fields the orchestrator reads. *)
Module UserPrincipal.
Record t : Type := mk {
    email : string;
    group : string;
    groups : list string
  }.
End UserPrincipal.

(** [AuthContextProvider]. *)
Record AuthContextProvider : Type := { principal : UserPrincipal.t }.

(** A browser [File]: name, media type and content. *)
Record File : Type := { file_name : string; file_type : string; file_content : string }.

(** Static members the orchestrator uses whose declarations are not among
    the sources: [Node.ROOT_FOLDER_UUID], [Node.SYSTEM_FOLDER_UUID],
    [User.ANONYMOUS_USER_EMAIL], [User.isAdmin] and the three folder tests
    [ActionService.isActionsFolder], [AspectService.isAspectsFolder],
    [ExtService.isExtensionsFolder]. The folder tests receive
    [metadata.parent!], which may be [undefined]. *)
Class Statics : Type := {
  ROOT_FOLDER_UUID : string;
  SYSTEM_FOLDER_UUID : string;
  ANONYMOUS_USER_EMAIL : string;
  isAdmin : UserPrincipal.t -> bool;
  isActionsFolder : option string -> bool;
  isAspectsFolder : option string -> bool;
  isExtensionsFolder : option string -> bool
}.

(** Modelled from the spec: [Node.isFolder()] is not among the sources;
    a node is a folder when its variant is Folder (section 3). *)
Definition isFolder (n : Node.t) : bool :=
  match Node.variant n with
  | FolderV => true
  | _ => false
  end.

(** Modelled from the spec: [Node.isRootFolder()] is not among the sources;
    the Root folder is the node with the fixed, well-known root UUID
    (section 3). *)
Definition isRootFolder `{Statics} (n : Node.t) : bool :=
  Node.uuid n =? ROOT_FOLDER_UUID.

(* ------------------------------------------------------------------ *)
(** ** Permission guard: [AntboxService.#assertPermission]             *)
(* ------------------------------------------------------------------ *)

Section Guard.
Context `{Statics}.

Definition assertPermission (authCtx : AuthContextProvider) (node : Node.t)
    (permission : Permission) : Either AntboxError unit :=
  let principal := principal authCtx in
  if negb (isFolder node) then Right tt
  else if isAdmin principal then Right tt
  else if isRootFolder node && Permission_eqb permission Read then Right tt
  else if isRootFolder node && negb (isAdmin principal) then Left ForbiddenError
  else if Node.owner node =? UserPrincipal.email (principal) then Right tt
  else if includes Permission_eqb
            (Permissions.anonymous (Node.permissions node)) permission
       then Right tt
  else if includes String.eqb (UserPrincipal.groups principal) (Node.group node)
          && includes Permission_eqb
               (Permissions.group (Node.permissions node)) permission
       then Right tt
  else if negb (UserPrincipal.email principal =? ANONYMOUS_USER_EMAIL)
          && includes Permission_eqb
               (Permissions.authenticated (Node.permissions node)) permission
       then Right tt
  else Left ForbiddenError.

Definition assertCanRead (authCtx : AuthContextProvider) (folder : Node.t)
  : Either AntboxError unit :=
  assertPermission authCtx folder Read.

Definition assertCanWrite (authCtx : AuthContextProvider) (parent : Node.t)
  : Either AntboxError unit :=
  assertPermission authCtx parent Write.

  (** *** The ladder of section 4.1, written from the spec's words

    An ordered list of rules; each rule either decides or passes, and the
    first rule that decides wins. *)

Inductive Decision : Type := Granted | Denied.

Definition Rule : Type :=
  UserPrincipal.t -> Node.t -> Permission -> option Decision.

Definition decide_if (cond : bool) (d : Decision) : option Decision :=
  if cond then Some d else None.

Definition rule_not_folder : Rule :=
  fun _ node _ => decide_if (negb (isFolder node)) Granted.
Definition rule_admin : Rule :=
  fun p _ _ => decide_if (isAdmin p) Granted.
Definition rule_root_read : Rule :=
  fun _ node cap => decide_if (isRootFolder node && Permission_eqb cap Read) Granted.
Definition rule_root_other : Rule :=
  fun _ node _ => decide_if (isRootFolder node) Denied.
Definition rule_owner : Rule :=
  fun p node _ => decide_if (UserPrincipal.email p =? Node.owner node) Granted.
Definition rule_anonymous : Rule :=
  fun _ node cap =>
    decide_if (includes Permission_eqb
                 (Permissions.anonymous (Node.permissions node)) cap) Granted.
Definition rule_group : Rule :=
  fun p node cap =>
    decide_if (includes String.eqb (UserPrincipal.groups p) (Node.group node)
               && includes Permission_eqb
                    (Permissions.group (Node.permissions node)) cap) Granted.
Definition rule_authenticated : Rule :=
  fun p node cap =>
    decide_if (negb (UserPrincipal.email p =? ANONYMOUS_USER_EMAIL)
               && includes Permission_eqb
                    (Permissions.authenticated (Node.permissions node)) cap)
              Granted.
Definition rule_otherwise : Rule :=
  fun _ _ _ => Some Denied.

Definition ladder : list Rule :=
  [ rule_not_folder; rule_admin; rule_root_read; rule_root_other;
    rule_owner; rule_anonymous; rule_group; rule_authenticated;
    rule_otherwise ].

Fixpoint first_match (rules : list Rule) (p : UserPrincipal.t)
    (node : Node.t) (cap : Permission) : option Decision :=
  match rules with
  | [] => None
  | r :: rest =>
      match r p node cap with
      | Some d => Some d
      | None => first_match rest p node cap
      end
  end.

Definition ladder_decision (p : UserPrincipal.t) (node : Node.t)
    (cap : Permission) : option Decision :=
  first_match ladder p node cap.

  (** The guard's result read as a decision. *)
Definition decision_of (r : Either AntboxError unit) : Decision :=
  match r with
  | Right _ => Granted
  | Left _ => Denied
  end.

  (** A decision as the guard returns it. *)
Definition result_of (d : Decision) : Either AntboxError unit :=
  match d with
  | Granted => Right tt
  | Denied => Left ForbiddenError
  end.

(** Adding one capability to one of the explicit grant sets
    ([Array.prototype.push] on the set's array). *)
Definition grantAnonymous (c : Permission) (ps : Permissions.t) : Permissions.t :=
  Permissions.mk (Permissions.owner ps) (Permissions.group ps)
    (Permissions.authenticated ps) (Permissions.anonymous ps ++ [c]).

Definition grantGroup (c : Permission) (ps : Permissions.t) : Permissions.t :=
  Permissions.mk (Permissions.owner ps) (Permissions.group ps ++ [c])
    (Permissions.authenticated ps) (Permissions.anonymous ps).

Definition grantAuthenticated (c : Permission) (ps : Permissions.t) : Permissions.t :=
  Permissions.mk (Permissions.owner ps) (Permissions.group ps)
    (Permissions.authenticated ps ++ [c]) (Permissions.anonymous ps).

End Guard.

(* ------------------------------------------------------------------ *)
(** ** Events, the node store interface and the world                  *)
(* ------------------------------------------------------------------ *)

(** The domain events the orchestrator constructs. *)
Inductive DomainEvent : Type :=
| NodeCreatedEvent (actorEmail : string) (node : Node.t)
| NodeUpdatedEvent (actorEmail uuid : string) (metadata : Partial.t)
| NodeDeletedEvent (actorEmail uuid : string)
| NodeContentUpdatedEvent (actorEmail uuid : string).

(** One entry per call the orchestrator makes on a collaborator. *)
Inductive StoreCall : Type :=
| CallGet (uuid : string)
| CallList (uuid : string)
| CallExport (uuid : string)
| CallCreateFile (file : File) (metadata : Partial.t)
| CallCreateMetanode (metadata : Partial.t)
| CallCreateFolder (metadata : Partial.t)
| CallUpdate (uuid : string) (metadata : Partial.t) (merge : option bool)
| CallUpdateFile (uuid : string) (file : File)
| CallCopy (uuid parent : string)
| CallDuplicate (uuid : string)
| CallDelete (uuid : string)
| CallActionCreateOrReplace (file : File) (metadata : Partial.t)
| CallAspectCreateOrReplace (file : File) (metadata : Partial.t)
| CallExtCreateOrReplace (file : File) (metadata : Partial.t).

(** The calls of [nodeService] that change the store. *)
Definition isMutation (c : StoreCall) : bool :=
  match c with
  | CallCreateFile _ _ | CallCreateMetanode _ | CallCreateFolder _
  | CallUpdate _ _ _ | CallUpdateFile _ _ | CallCopy _ _
  | CallDuplicate _ | CallDelete _ => true
  | _ => false
  end.

Definition isGet (c : StoreCall) : bool :=
  match c with
  | CallGet _ => true
  | _ => false
  end.

(** What the orchestrator consumes from its collaborators, over an abstract
    store state [S]: the operations of [NodeService] (not among the
    sources; section 6 lists its contract) and the [createOrReplace] entry
    points of the action, aspect and extension services. Reads are
    functions of the store state; mutations also return the next state. *)
Class NodeService (S : Type) : Type := {
  nodeService_get : string -> S -> Either AntboxError Node.t;
  nodeService_list : string -> S -> Either AntboxError (list Node.t);
  nodeService_export : string -> S -> Either AntboxError File;
  nodeService_createFile :
    File -> Partial.t -> S -> Either AntboxError Node.t * S;
  nodeService_createMetanode :
    Partial.t -> S -> Either AntboxError Node.t * S;
  nodeService_createFolder :
    Partial.t -> S -> Either AntboxError Node.t * S;
  nodeService_update :
    string -> Partial.t -> option bool -> S -> Either AntboxError unit * S;
  nodeService_updateFile :
    string -> File -> S -> Either AntboxError unit * S;
  nodeService_copy : string -> string -> S -> Either AntboxError Node.t * S;
  nodeService_duplicate : string -> S -> Either AntboxError Node.t * S;
  nodeService_delete : string -> S -> Either AntboxError unit * S;
  actionService_createOrReplace :
    File -> Partial.t -> S -> Either AntboxError Node.t * S;
  aspectService_createOrReplace :
    File -> Partial.t -> S -> Either AntboxError Node.t * S;
  extService_createOrReplace :
    File -> Partial.t -> S -> Either AntboxError Node.t * S
}.

(** The state an orchestrator call runs in: the store, the events this
    class has handed to [DomainEvents.notify] (oldest first), and the
    journal of collaborator calls with whether each returned a [Right]. *)
Record World (S : Type) : Type := mkWorld {
  store : S;
  published : list DomainEvent;
  journal : list (StoreCall * bool)
}.
Arguments mkWorld {S} store published journal.

(** A state monad over the world. *)
Definition M (S A : Type) : Type := World S -> A * World S.

Definition ret {S A} (a : A) : M S A := fun w => (a, w).

Definition bind {S A B} (m : M S A) (k : A -> M S B) : M S B :=
  fun w => let (a, w') := m w in k a w'.

Declare Scope orch_scope.
Delimit Scope orch_scope with orch.
Notation "x <- m ;; k" := (bind m (fun x => k))
  (at level 100, m at next level, right associativity) : orch_scope.
Notation "m ;;; k" := (bind m (fun _ => k))
  (at level 100, right associativity) : orch_scope.
Local Open Scope orch_scope.

(** A read of the store, journalled. *)
Definition query {S A} (c : StoreCall) (f : S -> Either AntboxError A)
  : M S (Either AntboxError A) :=
  fun w =>
    let r := f (store w) in
    (r, mkWorld (store w) (published w) (journal w ++ [(c, isRight r)])).

(** A mutation of the store, journalled. *)
Definition mutate {S A} (c : StoreCall) (f : S -> Either AntboxError A * S)
  : M S (Either AntboxError A) :=
  fun w =>
    let (r, s') := f (store w) in
    (r, mkWorld s' (published w) (journal w ++ [(c, isRight r)])).

(** [DomainEvents.notify(event)]: the event is handed to the bus; its
    subscribers run later and are not part of the call. *)
Definition notify {S} (ev : DomainEvent) : M S unit :=
  fun w => (tt, mkWorld (store w) (published w ++ [ev]) (journal w)).

(** An error raised with [throw]; [new Error(message)]. *)
Record JsError : Type := Error { message : string }.

(** How an [async] method without a tagged result ends: its promise
    resolves, or it rejects with the thrown error. *)
Inductive Outcome (A : Type) : Type :=
| Returned (value : A)
| Thrown (error : JsError).
Arguments Returned {A} value.
Arguments Thrown {A} error.

(** [Record<string, string>]. *)
Definition Params : Type := list (string * string).

(** An [Action] (domain/actions/action.ts is not among the sources; fields
    as in builtin_actions/move_to_folder.ts). [run(ctx, uuids, params)]
    resolves to [void | Error] and may itself call the services of its
    context, so it acts on the world. *)
Module Action.
Record t (S : Type) : Type := mk {
    uuid : string;
    title : string;
    builtIn : bool;
    multiple : bool;
    aspectConstraints : list string;
    mimetypeConstraints : list string;
    params : list string;
    run : AuthContextProvider -> list string -> Params
          -> M S (option JsError)
  }.
End Action.

(** [ActionRepository.get(uuid)]: resolves to the action, or to
    [undefined] when there is none (the caller tests [!action]). *)
Class ActionRepository (S : Type) : Type := {
  repository_get : string -> S -> option (Action.t S)
}.

(* ------------------------------------------------------------------ *)
(** ** Node orchestrator: [AntboxService]                              *)
(* ------------------------------------------------------------------ *)

Section Orchestrator.
Context `{Statics} {S : Type} `{NodeService S} `{ActionRepository S}.

Definition isSystemFolder (uuid : option string) : bool :=
  strictEq uuid SYSTEM_FOLDER_UUID
  || isAspectsFolder uuid
  || isActionsFolder uuid
  || isExtensionsFolder uuid.

(** [#getFolderWithPermission(auth, uuid, permission)]. Every caller
    passes a string, so the default value of [uuid] never applies. *)
Definition getFolderWithPermission (auth : AuthContextProvider)
    (uuid : string) (permission : Permission)
  : M S (Either AntboxError Node.t) :=
  folderOrErr <- query (CallGet uuid) (nodeService_get uuid) ;;
  match folderOrErr with
  | Left e => ret (Left e)
  | Right folder =>
      if negb (isFolder folder)
      then ret (Left (BadRequestError "Is not a folder"))
      else
        match assertPermission auth folder permission with
        | Left e => ret (Left e)
        | Right _ => ret (Right folder)
        end
  end.

Definition createFile (authCtx : AuthContextProvider) (file : File)
    (metadata : Partial.t) : M S (Either AntboxError Node.t) :=
  if isActionsFolder (Partial.parent metadata) then
    mutate (CallActionCreateOrReplace file metadata)
           (actionService_createOrReplace file metadata)
  else if isAspectsFolder (Partial.parent metadata) then
    mutate (CallAspectCreateOrReplace file metadata)
           (aspectService_createOrReplace file metadata)
  else if isExtensionsFolder (Partial.parent metadata) then
    mutate (CallExtCreateOrReplace file metadata)
           (extService_createOrReplace file metadata)
  else
    parentOrErr <- getFolderWithPermission authCtx
                     (nullish (Partial.parent metadata) ROOT_FOLDER_UUID) Write ;;
    match parentOrErr with
    | Left e => ret (Left e)
    | Right _ =>
        voidOrErr <- mutate (CallCreateFile file metadata)
                       (nodeService_createFile file metadata) ;;
        match voidOrErr with
        | Right node =>
            notify (NodeCreatedEvent
                      (UserPrincipal.email (principal authCtx)) node) ;;;
            ret voidOrErr
        | Left _ => ret voidOrErr
        end
    end.

Definition createMetanode (authCtx : AuthContextProvider)
    (metadata : Partial.t) : M S (Either AntboxError Node.t) :=
  parentOrErr <- getFolderWithPermission authCtx
                   (nullish (Partial.parent metadata) ROOT_FOLDER_UUID) Write ;;
  match parentOrErr with
  | Left e => ret (Left e)
  | Right _ =>
      result <- mutate (CallCreateMetanode metadata)
                  (nodeService_createMetanode metadata) ;;
      match result with
      | Right node =>
          notify (NodeCreatedEvent
                    (UserPrincipal.email (principal authCtx)) node) ;;;
          ret result
      | Left _ => ret result
      end
  end.

(** The object literal handed to [nodeService.createFolder]: the caller's
    metadata spread first, then [owner], [group] and [permissions]. *)
Definition folderMetadata (authCtx : AuthContextProvider)
    (metadata : Partial.t) (parent : Node.t) : Partial.t :=
  Partial.mk (Partial.uuid metadata) (Partial.title metadata)
    (Partial.parent metadata)
    (Some (UserPrincipal.email (principal authCtx)))
    (Some (UserPrincipal.group (principal authCtx)))
    (Some (Node.permissions parent))
    (Partial.mimetype metadata).

Definition createFolder (authCtx : AuthContextProvider)
    (metadata : Partial.t) : M S (Either AntboxError Node.t) :=
  if isSystemFolder (Partial.parent metadata) then
    ret (Left (BadRequestError "Cannot create folders in system folder"))
  else
    parentOrErr <- getFolderWithPermission authCtx
                     (nullish (Partial.parent metadata) ROOT_FOLDER_UUID) Write ;;
    match parentOrErr with
    | Left e => ret (Left e)
    | Right parent =>
        let metadata' := folderMetadata authCtx metadata parent in
        result <- mutate (CallCreateFolder metadata')
                    (nodeService_createFolder metadata') ;;
        match result with
        | Right node =>
            notify (NodeCreatedEvent
                      (UserPrincipal.email (principal authCtx)) node) ;;;
            ret result
        | Left _ => ret result
        end
    end.

(** [list(authCtx, uuid = Node.ROOT_FOLDER_UUID)]. *)
Definition list_ (authCtx : AuthContextProvider) (uuid : option string)
  : M S (Either AntboxError (list Node.t)) :=
  let uuid := nullish uuid ROOT_FOLDER_UUID in
  parentOrErr <- getFolderWithPermission authCtx uuid Read ;;
  match parentOrErr with
  | Left e => ret (Left e)
  | Right _ =>
      listOrErr <- query (CallList uuid) (nodeService_list uuid) ;;
      match listOrErr with
      | Left e => ret (Left e)
      | Right children =>
          ret (Right (filter
                        (fun n => negb (isFolder n)
                                  || isRight (assertCanRead authCtx n))
                        children))
      end
  end.

Definition getFolder (authCtx : AuthContextProvider) (folder : Node.t)
  : Either AntboxError Node.t :=
  match assertCanRead authCtx folder with
  | Left e => Left e
  | Right _ => Right folder
  end.

Definition get (authCtx : AuthContextProvider) (uuid : string)
  : M S (Either AntboxError Node.t) :=
  nodeOrErr <- query (CallGet uuid) (nodeService_get uuid) ;;
  match nodeOrErr with
  | Left e => ret (Left e)
  | Right node =>
      if isFolder node then ret (getFolder authCtx node)
      else
        parentOrErr <- getFolderWithPermission authCtx (Node.parent node) Read ;;
        match parentOrErr with
        | Left e => ret (Left e)
        | Right _ => ret (Right node)
        end
  end.

Definition updateFolder (authCtx : AuthContextProvider) (folder : Node.t)
    (metadata : Partial.t) : M S (Either AntboxError unit) :=
  match assertCanWrite authCtx folder with
  | Left e => ret (Left e)
  | Right _ =>
      let proceed :=
        voidOrErr <- mutate (CallUpdate (Node.uuid folder) metadata None)
                       (nodeService_update (Node.uuid folder) metadata None) ;;
        (if isRight voidOrErr
         then notify (NodeUpdatedEvent (Node.owner folder)
                        (Node.uuid folder) metadata)
         else ret tt) ;;;
        ret voidOrErr in
      match Partial.parent metadata with
      | Some newParent =>
          if truthy (Some newParent) then
            newParentOrErr <- getFolderWithPermission authCtx newParent Write ;;
            if isLeft newParentOrErr then ret (Left ForbiddenError)
            else proceed
          else proceed
      | None => proceed
      end
  end.

Definition update (authCtx : AuthContextProvider) (uuid : string)
    (metadata : Partial.t) (merge : option bool)
  : M S (Either AntboxError unit) :=
  nodeOrErr <- query (CallGet uuid) (nodeService_get uuid) ;;
  match nodeOrErr with
  | Left e => ret (Left e)
  | Right node =>
      if isFolder node then updateFolder authCtx node metadata
      else
        parentOrErr <- getFolderWithPermission authCtx (Node.parent node) Write ;;
        if isLeft parentOrErr then ret (Left ForbiddenError)
        else
          let proceed :=
            voidOrErr <- mutate (CallUpdate uuid metadata merge)
                           (nodeService_update uuid metadata merge) ;;
            (if isRight voidOrErr
             then notify (NodeUpdatedEvent
                            (UserPrincipal.email (principal authCtx))
                            uuid metadata)
             else ret tt) ;;;
            ret voidOrErr in
          match Partial.parent metadata with
          | Some newParent =>
              if truthy (Some newParent) then
                newParentOrErr <-
                  getFolderWithPermission authCtx newParent Write ;;
                if isLeft newParentOrErr then ret (Left ForbiddenError)
                else proceed
              else proceed
          | None => proceed
          end
  end.

Definition export (authCtx : AuthContextProvider) (uuid : string)
  : M S (Either AntboxError File) :=
  nodeOrErr <- query (CallGet uuid) (nodeService_get uuid) ;;
  match nodeOrErr with
  | Left e => ret (Left e)
  | Right node =>
      parentOrErr <- getFolderWithPermission authCtx (Node.parent node) Export ;;
      match parentOrErr with
      | Left e => ret (Left e)
      | Right _ =>
          query (CallExport (Node.uuid node)) (nodeService_export (Node.uuid node))
      end
  end.

Definition copy (authCtx : AuthContextProvider) (uuid parent : string)
  : M S (Either AntboxError Node.t) :=
  parentOrErr <- getFolderWithPermission authCtx parent Write ;;
  match parentOrErr with
  | Left e => ret (Left e)
  | Right _ =>
      noderOrErr <- get authCtx uuid ;;
      match noderOrErr with
      | Left e => ret (Left e)
      | Right _ =>
          voidOrErr <- mutate (CallCopy uuid parent)
                         (nodeService_copy uuid parent) ;;
          match voidOrErr with
          | Right node =>
              notify (NodeCreatedEvent
                        (UserPrincipal.email (principal authCtx)) node) ;;;
              ret voidOrErr
          | Left _ => ret voidOrErr
          end
      end
  end.

Definition duplicate (authCtx : AuthContextProvider) (uuid : string)
  : M S (Either AntboxError Node.t) :=
  noderOrErr <- get authCtx uuid ;;
  match noderOrErr with
  | Left e => ret (Left e)
  | Right node =>
      parentOrErr <- getFolderWithPermission authCtx (Node.parent node) Write ;;
      match parentOrErr with
      | Left e => ret (Left e)
      | Right _ =>
          mutate (CallDuplicate uuid) (nodeService_duplicate uuid)
      end
  end.

Definition updateFile (_authCtx : AuthContextProvider) (uuid : string)
    (file : File) : M S (Either AntboxError unit) :=
  if isSystemFolder (Some uuid) then
    ret (Left (BadRequestError "Cannot update system folder"))
  else
    result <- mutate (CallUpdateFile uuid file)
                (nodeService_updateFile uuid file) ;;
    (if isRight result
     then notify (NodeContentUpdatedEvent
                    (UserPrincipal.email (principal _authCtx)) uuid)
     else ret tt) ;;;
    ret result.

Definition delete (authCtx : AuthContextProvider) (uuid : string)
  : M S (Either AntboxError unit) :=
  nodeOrErr <- query (CallGet uuid) (nodeService_get uuid) ;;
  match nodeOrErr with
  | Left e => ret (Left e)
  | Right node =>
      if isFolder node && isLeft (assertCanWrite authCtx node)
      then ret (Left ForbiddenError)
      else
        parentOrErr <- getFolderWithPermission authCtx (Node.parent node) Write ;;
        match parentOrErr with
        | Left e => ret (Left e)
        | Right _ =>
            voidOrErr <- mutate (CallDelete uuid) (nodeService_delete uuid) ;;
            (if isRight voidOrErr
             then notify (NodeDeletedEvent
                            (UserPrincipal.email (principal authCtx)) uuid)
             else ret tt) ;;;
            ret voidOrErr
        end
  end.

(** *** Manual action runs: [ActionService.get], [ActionService.run] and
    [AntboxService.runAction] *)

Definition ActionService_get (_principal : AuthContextProvider) (uuid : string)
  : M S (option (Action.t S)) :=
  fun w => (repository_get uuid (store w), w).

(** [run(principal, uuid, params, uuids)]. The orchestrator calls it as
    [run(authCtx, uuid, uuids, params)], so the parameter named [params]
    holds the array of target uuids and the one named [uuids] holds the
    parameter record; [action.run(ctx, params, uuids)] hands them on in
    that order, where the action expects [(ctx, uuids, params)]. The
    types below are those of the values that flow. *)
Definition ActionService_run (principal : AuthContextProvider) (uuid : string)
    (params : list string) (uuids : Params) : M S (Outcome unit) :=
  action <- ActionService_get principal uuid ;;
  match action with
  | None => ret (Thrown (Error ("Action " ++ uuid ++ " not found")))
  | Some action =>
      error <- Action.run action principal params uuids ;;
      match error with
      | Some e => ret (Thrown e)
      | None => ret (Returned tt)
      end
  end.

Definition runAction (authCtx : AuthContextProvider) (uuid : string)
    (uuids : list string) (params : Params) : M S (Outcome unit) :=
  ActionService_run authCtx uuid uuids params.

End Orchestrator.

(* ------------------------------------------------------------------ *)
(** ** Notions used to state the properties                            *)
(* ------------------------------------------------------------------ *)

Section Notions.
Context `{Statics} {S : Type} `{NodeService S}.

(** What [#getFolderWithPermission] answers in a given store state. *)
Definition resolveFolder (auth : AuthContextProvider) (uuid : string)
    (permission : Permission) (s : S) : Either AntboxError Node.t :=
  fst (getFolderWithPermission auth uuid permission (mkWorld s [] [])).

(** An orchestrator call publishes only after a confirmed store mutation:
    a call that ends in [Left] publishes nothing, and any call either
    publishes nothing or publishes one event, in which case the last
    collaborator call it made is a store mutation that returned [Right]. *)
Definition publishesOnlyAfterSuccess {A} (m : M S (Either AntboxError A)) : Prop :=
  forall w,
    let r := fst (m w) in
    let w' := snd (m w) in
    (isLeft r = true -> published w' = published w)
    /\ (published w' = published w
        \/ exists ev c calls,
             isMutation c = true
             /\ journal w' = journal w ++ calls ++ [(c, true)]
             /\ published w' = published w ++ [ev]).

(** Why [#getFolderWithPermission] fails, with the error it returns: the
    lookup failed, the node found is not a folder, or the guard refused. *)
Inductive FolderFailure (auth : AuthContextProvider) (uuid : string)
    (permission : Permission) (s : S) : AntboxError -> Prop :=
| ParentMissing e :
    nodeService_get uuid s = Left e ->
    FolderFailure auth uuid permission s e
| ParentNotFolder n :
    nodeService_get uuid s = Right n ->
    isFolder n = false ->
    FolderFailure auth uuid permission s (BadRequestError "Is not a folder")
| ParentUnauthorized n e :
    nodeService_get uuid s = Right n ->
    isFolder n = true ->
    assertPermission auth n permission = Left e ->
    FolderFailure auth uuid permission s e.

(** The node store builds the folder from the metadata it is given: the
    owner, group and permissions present in the metadata are those of the
    folder it returns. *)
Definition createFolderHonoursMetadata : Prop :=
  forall md s n s',
    nodeService_createFolder md s = (Right n, s') ->
    (forall o, Partial.owner md = Some o -> Node.owner n = o)
    /\ (forall g, Partial.group md = Some g -> Node.group n = g)
    /\ (forall ps, Partial.permissions md = Some ps -> Node.permissions n = ps).

(** The calls made between two worlds were all [nodeService.get]. *)
Definition onlyGets (w w' : World S) : Prop :=
  exists calls,
    journal w' = journal w ++ calls
    /\ forallb (fun entry => isGet (fst entry)) calls = true.

End Notions.

(* ------------------------------------------------------------------ *)
(** ** A concrete installation, to run the orchestrator on inputs      *)
(* ------------------------------------------------------------------ *)

(** Concrete values for the static members and a small in-memory node
    service: the store is the list of node records, looked up the way
    [InMemoryNodeRepository.getById] does ([records.find] on the uuid).
    There are no user-defined actions in its action repository. *)
Module Fixture.

#[export] Instance statics : Statics := {|
  ROOT_FOLDER_UUID := "--root--";
  SYSTEM_FOLDER_UUID := "--system--";
  ANONYMOUS_USER_EMAIL := "anonymous@antbox.io";
  isAdmin := fun p => UserPrincipal.email p =? "root@antbox.io";
  isActionsFolder := fun u => strictEq u "--actions--";
  isAspectsFolder := fun u => strictEq u "--aspects--";
  isExtensionsFolder := fun u => strictEq u "--extensions--"
|}.

Definition Db : Type := list Node.t.

Definition getById (uuid : string) (db : Db) : Either AntboxError Node.t :=
  match find (fun n => Node.uuid n =? uuid) db with
  | Some n => Right n
  | None => Left (NodeNotFoundError uuid)
  end.

Definition noPermissions : Permissions.t := Permissions.mk [] [] [] [].

Definition fromMetadata (v : Variant) (fresh : string) (md : Partial.t) : Node.t :=
  Node.mk (nullish (Partial.uuid md) fresh)
    (nullish (Partial.title md) "")
    (nullish (Partial.parent md) "--root--")
    (nullish (Partial.owner md) "")
    (nullish (Partial.group md) "")
    (match Partial.permissions md with Some ps => ps | None => noPermissions end)
    (nullish (Partial.mimetype md) "")
    v.

Definition add (v : Variant) (md : Partial.t) (db : Db)
  : Either AntboxError Node.t * Db :=
  let n := fromMetadata v "fresh-uuid" md in
  (Right n, db ++ [n]).

Definition patch (md : Partial.t) (n : Node.t) : Node.t :=
  Node.mk (Node.uuid n)
    (nullish (Partial.title md) (Node.title n))
    (nullish (Partial.parent md) (Node.parent n))
    (nullish (Partial.owner md) (Node.owner n))
    (nullish (Partial.group md) (Node.group n))
    (match Partial.permissions md with
     | Some ps => ps
     | None => Node.permissions n
     end)
    (nullish (Partial.mimetype md) (Node.mimetype n))
    (Node.variant n).

Definition change (uuid : string) (f : Node.t -> Node.t) (db : Db)
  : Either AntboxError unit * Db :=
  match getById uuid db with
  | Left e => (Left e, db)
  | Right _ =>
      (Right tt, map (fun n => if Node.uuid n =? uuid then f n else n) db)
  end.

Definition clone (uuid fresh : string) (parent : option string) (db : Db)
  : Either AntboxError Node.t * Db :=
  match getById uuid db with
  | Left e => (Left e, db)
  | Right n =>
      let n' := Node.mk fresh (Node.title n) (nullish parent (Node.parent n))
                  (Node.owner n) (Node.group n) (Node.permissions n)
                  (Node.mimetype n) (Node.variant n) in
      (Right n', db ++ [n'])
  end.

Definition remove (uuid : string) (db : Db) : Either AntboxError unit * Db :=
  match getById uuid db with
  | Left e => (Left e, db)
  | Right _ => (Right tt, filter (fun n => negb (Node.uuid n =? uuid)) db)
  end.

#[export] Instance nodeService : NodeService Db := {|
  nodeService_get := getById;
  nodeService_list := fun uuid db =>
    Right (filter (fun n => Node.parent n =? uuid) db);
  nodeService_export := fun uuid db =>
    match getById uuid db with
    | Left e => Left e
    | Right n => Right (Build_File (Node.title n) (Node.mimetype n) "")
    end;
  nodeService_createFile := fun _ md => add FileV md;
  nodeService_createMetanode := add MetanodeV;
  nodeService_createFolder := add FolderV;
  nodeService_update := fun uuid md _ => change uuid (patch md);
  nodeService_updateFile := fun uuid _ => change uuid (fun n => n);
  nodeService_copy := fun uuid parent => clone uuid "copy-uuid" (Some parent);
  nodeService_duplicate := fun uuid => clone uuid "duplicate-uuid" None;
  nodeService_delete := remove;
  actionService_createOrReplace := fun _ md => add FileV md;
  aspectService_createOrReplace := fun _ md => add FileV md;
  extService_createOrReplace := fun _ md => add FileV md
|}.

#[export] Instance actionRepository : ActionRepository Db := {|
  repository_get := fun _ _ => None
|}.

Definition everything : list Permission := [Read; Write; Export].

(** The root and system folders, a folder [F] owned by alice whose group
    [eng] may read, a folder [G] owned by dave with no grants, and a file
    [N] inside [F]. *)
Definition root : Node.t :=
  Node.mk "--root--" "root" "--root--" "root@antbox.io" "--admins--"
    noPermissions "application/vnd.antbox.folder" FolderV.

Definition system : Node.t :=
  Node.mk "--system--" "system" "--root--" "root@antbox.io" "--admins--"
    noPermissions "application/vnd.antbox.folder" FolderV.

Definition F : Node.t :=
  Node.mk "F" "engineering" "--root--" "alice@example.com" "eng"
    (Permissions.mk everything [Read] [] [])
    "application/vnd.antbox.folder" FolderV.

Definition G : Node.t :=
  Node.mk "G" "private" "--root--" "dave@example.com" "ops"
    noPermissions "application/vnd.antbox.folder" FolderV.

Definition N : Node.t :=
  Node.mk "N" "report.pdf" "F" "alice@example.com" "eng"
    noPermissions "application/pdf" FileV.

(** A file whose parent folder is not in the store. *)
Definition orphan : Node.t :=
  Node.mk "orphan" "lost.txt" "gone" "alice@example.com" "eng"
    noPermissions "text/plain" FileV.

Definition db0 : Db := [root; system; F; G; N; orphan].

Definition world0 : World Db := mkWorld db0 [] [].

Definition asUser (email group : string) (groups : list string)
  : AuthContextProvider :=
  Build_AuthContextProvider (UserPrincipal.mk email group groups).

Definition admin : AuthContextProvider :=
  asUser "root@antbox.io" "--admins--" ["--admins--"].
Definition alice : AuthContextProvider :=
  asUser "alice@example.com" "eng" ["eng"].
Definition bob : AuthContextProvider :=
  asUser "bob@example.com" "eng" ["eng"].
Definition carol : AuthContextProvider :=
  asUser "carol@example.com" "sales" ["sales"].

(** A non-admin principal whose email is the owner recorded on the root
    folder of a store. *)
Definition rootOwnedBy (owner : string) : Node.t :=
  Node.mk "--root--" "root" "--root--" owner "staff"
    (Permissions.mk everything everything everything everything)
    "application/vnd.antbox.folder" FolderV.

Definition moveTo (parent : string) : Partial.t :=
  Partial.mk None None (Some parent) None None None None.

(** Metadata for a new folder under [F] that tries to name another owner,
    another group and full grants for everybody. *)
Definition intruding : Partial.t :=
  Partial.mk None (Some "sub") (Some "F") (Some "mallory@example.com")
    (Some "intruders")
    (Some (Permissions.mk everything everything everything everything))
    None.

End Fixture.

(* ------------------------------------------------------------------ *)
(** ** [InMemoryNodeRepository]                                        *)
(* ------------------------------------------------------------------ *)

(** A JavaScript number that holds an integer, or one of the values an
    integer division can produce besides: [-0], [Infinity] and [NaN]. *)
Inductive JsNumber : Type :=
| Finite (z : Z)
| NegativeZero
| PositiveInfinity
| NotANumber.

(** [Math.ceil(length / pageSize)] for an array length and an integer
    [pageSize]. *)
Definition ceilOfQuotient (length : nat) (pageSize : Z) : JsNumber :=
  let n := Z.of_nat length in
  if (pageSize =? 0)%Z then
    if (n =? 0)%Z then NotANumber else PositiveInfinity
  else if (0 <? pageSize)%Z then
    Finite ((n + pageSize - 1) / pageSize)%Z
  else
    let q := (n / (- pageSize))%Z in
    if (q =? 0)%Z then NegativeZero else Finite (- q)%Z.

(** The index [Array.prototype.slice] derives from an integer argument:
    negative arguments count from the end, and the result is clamped to
    the array. *)
Definition relativeIndex (length : nat) (i : Z) : nat :=
  if (i <? 0)%Z then Z.to_nat (Z.max (Z.of_nat length + i) 0)
  else Nat.min (Z.to_nat i) length.

(** [xs.slice(start, end)] with integer arguments. *)
Definition slice {A} (xs : list A) (start end_ : Z) : list A :=
  let from := relativeIndex (length xs) start in
  let to := relativeIndex (length xs) end_ in
  firstn (to - from) (skipn from xs).

Module InMemoryNodeRepository.

(** [db: Record<string, Partial<Node>>], as the list of its own properties
    in the order [Object.values] enumerates them. The repository reads the
    values as complete nodes ([as Node[]]), which is what [add] and
    [update] store. *)
Definition Db : Type := list (string * Node.t).

Definition digitValue (c : ascii) : option N :=
  let n := N_of_ascii c in
  if ((48 <=? n) && (n <=? 57))%N then Some (n - 48)%N else None.

Fixpoint decimal (s : string) (acc : N) : option N :=
  match s with
  | EmptyString => Some acc
  | String c rest =>
      match digitValue c with
      | Some d => decimal rest (10 * acc + d)%N
      | None => None
      end
  end.

(** A property key is an array index when it is the canonical decimal
    form of an integer below [2^32 - 1]; objects enumerate such keys first,
    in ascending numeric order, and the other keys after them in the order
    of their creation. *)
Definition arrayIndex (key : string) : option N :=
  match key with
  | EmptyString => None
  | String c rest =>
      if Ascii.eqb c "0" && negb (rest =? "") then None
      else
        match decimal key 0 with
        | Some n => if (n <? 4294967295)%N then Some n else None
        | None => None
        end
  end.

Definition has (key : string) (db : Db) : bool :=
  existsb (fun e => fst e =? key) db.

(** Where a new array-index key goes: before the first key that is not
    an array index or is a larger one. *)
Fixpoint insertIndexed (i : N) (key : string) (value : Node.t) (db : Db) : Db :=
  match db with
  | [] => [(key, value)]
  | (k, x) :: rest =>
      match arrayIndex k with
      | Some j =>
          if (j <? i)%N then (k, x) :: insertIndexed i key value rest
          else (key, value) :: db
      | None => (key, value) :: db
      end
  end.

(** [db[key] = value]: an existing property keeps its place. *)
Definition set (key : string) (value : Node.t) (db : Db) : Db :=
  if has key db then
    map (fun e => if fst e =? key then (key, value) else e) db
  else
    match arrayIndex key with
    | Some i => insertIndexed i key value db
    | None => db ++ [(key, value)]
    end.

(** [delete db[key]]. *)
Definition unset (key : string) (db : Db) : Db :=
  List.filter (fun e => negb (fst e =? key)) db.

Definition delete (uuid : string) (db : Db) : Either AntboxError unit * Db :=
  (Right tt, unset uuid db).

Definition records (db : Db) : list Node.t := map snd db.

Definition count (db : Db) : nat := length (records db).

Definition add (node : Node.t) (db : Db) : Either AntboxError unit * Db :=
  (Right tt, set (Node.uuid node) node db).

Definition update (node : Node.t) (db : Db) : Either AntboxError unit * Db :=
  (Right tt, set (Node.uuid node) node db).

Definition getById (uuid : string) (db : Db) : Either AntboxError Node.t :=
  match find (fun n => Node.uuid n =? uuid) (records db) with
  | None => Left (NodeNotFoundError uuid)
  | Some node => Right node
  end.

(** [NodeFilterResult]. *)
Record NodeFilterResult : Type := mkResult {
  nodes : list Node.t;
  pageCount : JsNumber;
  pageSize : Z;
  pageToken : Z
}.

(** [filter(filters, pageSize, pageToken)] for integer page parameters.
    [getNodeFilterPredicate] is not among the sources and is a parameter. *)
Definition filter {Filters : Type}
    (getNodeFilterPredicate : Filters -> Node.t -> bool)
    (filters : Filters) (pageSize pageToken : Z) (db : Db)
  : NodeFilterResult :=
  let firstIndex := ((pageToken - 1) * pageSize)%Z in
  let lastIndex := (firstIndex + pageSize)%Z in
  let filtered := List.filter (getNodeFilterPredicate filters) (records db) in
  let nodes := slice filtered firstIndex lastIndex in
  let pageCount := ceilOfQuotient (length filtered) pageSize in
  mkResult nodes pageCount pageSize pageToken.

(** The repository's working invariant: every record is stored under its
    own uuid and no key occurs twice. [add] and [update] establish it for
    what they store; a [db] handed to the constructor need not have it. *)
Definition Keyed (db : Db) : Prop :=
  Forall (fun e => Node.uuid (snd e) = fst e) db /\ NoDup (map fst db).

End InMemoryNodeRepository.

(* ------------------------------------------------------------------ *)
(** ** Further notions on orchestrator calls                           *)
(* ------------------------------------------------------------------ *)

Section CallNotions.
Context `{Statics} {S : Type} `{NodeService S}.

(** What [get] answers in a given store state. *)
Definition readable (authCtx : AuthContextProvider) (uuid : string) (s : S)
  : Either AntboxError Node.t :=
  fst (get authCtx uuid (mkWorld s [] [])).

(** The principal holds [permission] on the folder [uuid] of the store:
    [#getFolderWithPermission] answers with a folder. *)
Definition grantedOn (authCtx : AuthContextProvider) (uuid : string)
    (permission : Permission) (s : S) : Prop :=
  exists folder, resolveFolder authCtx uuid permission s = Right folder.

(** A call that only reads: the store and the published events are as
    before, and no call journalled meanwhile is a store mutation. *)
Definition readsOnly {A} (m : M S A) : Prop :=
  forall w,
    store (snd (m w)) = store w
    /\ published (snd (m w)) = published w
    /\ exists calls,
         journal (snd (m w)) = journal w ++ calls
         /\ forallb (fun entry => negb (isMutation (fst entry))) calls = true.

(** A call publishes [event v] when it ends in [Right v], and nothing when
    it ends in [Left]. *)
Definition publishesOnSuccess {A} (m : M S (Either AntboxError A))
    (event : A -> DomainEvent) : Prop :=
  forall w,
    published (snd (m w))
    = match fst (m w) with
      | Right v => published w ++ [event v]
      | Left _ => published w
      end.

(** A call has an effect (it succeeds, changes the store or publishes)
    only in worlds where [authorized] holds. *)
Definition requires {A} (m : M S (Either AntboxError A))
    (authorized : World S -> Prop) : Prop :=
  forall w,
    isRight (fst (m w)) = true
    \/ store (snd (m w)) <> store w
    \/ published (snd (m w)) <> published w ->
    authorized w.

End CallNotions.

(* ------------------------------------------------------------------ *)
(** ** Actions: listing, and the built-in [move_to_folder]             *)
(* ------------------------------------------------------------------ *)

(** [ActionRepository.getAll()] and the list exported by
    builtin_actions/index.js, neither of which is among the sources. *)
Class ActionCatalog (S : Type) : Type := {
  repository_getAll : S -> list (Action.t S);
  builtinActions : list (Action.t S)
}.

(** [params[key]] on a [Record<string, string>]. *)
Definition lookupParam (params : Params) (key : string) : option string :=
  option_map snd (find (fun entry => fst entry =? key) params).

(** The [RunContext] an action receives: the principal of the run and
    the node service of the action service's context, of which the
    built-in action uses [update(principal, uuid, metadata, merge)]. *)
Record RunContext (S : Type) : Type := mkRunContext {
  ctx_principal : AuthContextProvider;
  ctx_nodeService_update :
    AuthContextProvider -> string -> Partial.t -> option bool
    -> M S (Either AntboxError unit)
}.

Section Actions.
Context {S : Type} `{ActionRepository S} `{ActionCatalog S}.

(** [Promise.all] over calls that have all been started: how their store
    calls interleave is left open. *)
Variable promiseAll : forall A : Type, list (M S A) -> M S (list A).

(** [ActionService.list]: the built-in actions, then the repository's. *)
Definition ActionService_list (_principal : AuthContextProvider)
  : M S (list (Action.t S)) :=
  fun w => (builtinActions ++ repository_getAll (store w), w).

(** [run] of builtin_actions/move_to_folder.ts. *)
Definition moveToFolder_run (ctx : RunContext S) (uuids : list string)
    (params : Params) : M S (option JsError) :=
  let parent := lookupParam params "destination" in
  let batch :=
    map (fun u =>
           ctx_nodeService_update ctx (ctx_principal ctx) u
             (Partial.mk None None parent None None None None) (Some true))
        uuids in
  _ <- promiseAll batch ;;
  ret None.

(** The exported action object, closed over the node service its context
    will carry. *)
Definition moveToFolder
    (nodeService_update_ :
       AuthContextProvider -> string -> Partial.t -> option bool
       -> M S (Either AntboxError unit))
  : Action.t S :=
  Action.mk "move_to_folder" "Mover para pasta" true true [] []
    ["destination"]
    (fun principal uuids params =>
       moveToFolder_run (mkRunContext principal nodeService_update_)
         uuids params).


End Actions.

(* ------------------------------------------------------------------ *)
(** ** The HTTP handlers of the node and action routers                *)
(* ------------------------------------------------------------------ *)

(** [s.split(",")] and the like, for a one-character separator. *)
Fixpoint splitOn (sep : ascii) (s : string) : list string :=
  match s with
  | EmptyString => [""]
  | String c rest =>
      if Ascii.eqb c sep then "" :: splitOn sep rest
      else
        match splitOn sep rest with
        | [] => [String c ""]
        | piece :: pieces => String c piece :: pieces
        end
  end.

(** [pieces.join(sep)]. *)
Fixpoint joinWith (sep : ascii) (pieces : list string) : string :=
  match pieces with
  | [] => ""
  | [piece] => piece
  | piece :: rest => piece ++ String sep (joinWith sep rest)
  end.

(** What a handler passes to [processError]: the [value] of a [Left], or
    the error a rejected promise carries into [.catch]. *)
Inductive Failure : Type :=
| ServiceError (error : AntboxError)
| Raised (error : JsError).

(** The body a handler passes to [sendOK]. *)
Inductive Body : Type :=
| NodesBody (nodes : list Node.t).

Section Handlers.
Context `{Statics} {S : Type} `{NodeService S} `{ActionRepository S}.

(** The helpers of adapters/oak that write the response ([sendOK],
    [sendBadRequest], [processError]) are not among the sources: a handler
    is modelled by which of them it ends with, and on what. The request
    context ([getRequestContext(ctx)]), the route parameters and the parsed
    body or query are the handler's arguments. *)
Variable Reply : Type.
Variable sendOK : option Body -> Reply.
Variable sendBadRequest : string -> Reply.
Variable processError : Failure -> Reply.

(** [processEither(ctx, either, value)] of nodes_router.ts. *)
Definition processEither {A} (either : Either AntboxError A)
    (value : option Body) : Reply :=
  match either with
  | Left e => processError (ServiceError e)
  | Right _ => sendOK value
  end.

(** [listHandler] of nodes_router.ts; [parent] is [query.parent]. *)
Definition nodes_listHandler (authCtx : AuthContextProvider)
    (parent : option string) : M S Reply :=
  let parent :=
    match parent with
    | Some p => if Nat.ltb 0 (String.length p) then Some p else None
    | None => None
    end in
  result <- list_ authCtx parent ;;
  match result with
  | Left e => ret (processError (ServiceError e))
  | Right nodes => ret (sendOK (Some (NodesBody nodes)))
  end.

(** [createHandler]; [type] and [metadata] are the fields of the request
    body. *)
Definition nodes_createHandler (authCtx : AuthContextProvider)
    (type : option string) (metadata : option Partial.t) : M S Reply :=
  if negb (truthy type) then ret (sendBadRequest "{ type } not given")
  else
    match metadata with
    | None => ret (sendBadRequest "{ title } not given")
    | Some metadata =>
        if negb (truthy (Partial.title metadata))
        then ret (sendBadRequest "{ title } not given")
        else
          result <- (if strictEq type "Metanode"
                     then createMetanode authCtx metadata
                     else createFolder authCtx metadata) ;;
          ret (processEither result None)
    end.

(** [updateHandler]; [body] is the request body. *)
Definition nodes_updateHandler (authCtx : AuthContextProvider)
    (uuid : string) (body : Partial.t) : M S Reply :=
  result <- update authCtx uuid body None ;;
  match result with
  | Left e => ret (processError (ServiceError e))
  | Right _ => ret (sendOK None)
  end.

(** [deleteHandler]. *)
Definition nodes_deleteHandler (authCtx : AuthContextProvider)
    (uuid : string) : M S Reply :=
  _ <- delete authCtx uuid ;;
  ret (sendOK None).

(** [copyHandler]; [to] is the field of the request body. *)
Definition nodes_copyHandler (authCtx : AuthContextProvider)
    (uuid to : string) : M S Reply :=
  result <- copy authCtx uuid to ;;
  match result with
  | Left e => ret (processError (ServiceError e))
  | Right _ => ret (sendOK None)
  end.

(** [duplicateHandler]. *)
Definition nodes_duplicateHandler (authCtx : AuthContextProvider)
    (uuid : string) : M S Reply :=
  result <- duplicate authCtx uuid ;;
  ret (processEither result None).

(** [runHandler] of the actions router; [query] is [getQuery(ctx)]. *)
Definition actions_runHandler (authCtx : AuthContextProvider)
    (uuid : string) (query : Params) : M S Reply :=
  if negb (truthy (lookupParam query "uuids"))
  then ret (sendBadRequest "Missing uuids query parameter")
  else
    let uuids := splitOn "," (nullish (lookupParam query "uuids") "") in
    outcome <- runAction authCtx uuid uuids query ;;
    match outcome with
    | Returned _ => ret (sendOK None)
    | Thrown err => ret (processError (Raised err))
    end.

End Handlers.

(* ------------------------------------------------------------------ *)
(** ** The concrete installation, continued                            *)
(* ------------------------------------------------------------------ *)

(** The installation of [Fixture] with the built-in move: an action
    repository that holds it, the catalogue that lists it, a reply type
    for the handlers, and a small repository. *)
Module Installed.
Import Fixture.

(** A stand-in for [Promise.all] that runs the calls one after another;
    used with a single call, where there is nothing to interleave. *)
Fixpoint oneAfterAnother (A : Type) (calls : list (M Db A)) : M Db (list A) :=
  match calls with
  | [] => ret []
  | call :: rest =>
      x <- call ;;
      xs <- oneAfterAnother rest ;;
      ret (x :: xs)
  end.

(** The built-in move, with the orchestrator as the node service of its
    context. *)
Definition moveAction : Action.t Db :=
  moveToFolder oneAfterAnother (update (S := Db)).

Definition repositoryWithMove : ActionRepository Db := {|
  repository_get := fun uuid _ =>
    if uuid =? "move_to_folder" then Some moveAction else None
|}.

#[export] Instance catalog : ActionCatalog Db := {|
  repository_getAll := fun _ => [];
  builtinActions := [moveAction]
|}.

Inductive Reply : Type :=
| OK (body : option Body)
| BadRequest (message : string)
| Failed (failure : Failure).

Definition stored : InMemoryNodeRepository.Db := [("F", F); ("N", N)].

Definition everyNode (_ : unit) (_ : Node.t) : bool := true.

Definition named (uuid : string) : Node.t :=
  Node.mk uuid "" "--root--" "" "" noPermissions "" FileV.

Definition rename (title : string) : Partial.t :=
  Partial.mk None (Some title) None None None None None.

End Installed.

(* ------------------------------------------------------------------ *)
(** ** Why a node cannot be read                                       *)
(* ------------------------------------------------------------------ *)

Section ReadFailures.
Context `{Statics} {S : Type} `{NodeService S}.


End ReadFailures.

(* ================================================================== *)
(** * Properties                                                       *)
(* ================================================================== *)

Unset Implicit Arguments.

Lemma includes_push {A} (eqb : A -> A -> bool) xs c x :
  includes eqb (xs ++ [c]) x = includes eqb xs x || eqb x c.
Proof.
  unfold includes. rewrite existsb_app. simpl.
  now rewrite orb_false_r.
Qed.

Section GuardFacts.
Context `{Statics}.

(** The guard never fails with anything but [ForbiddenError]. *)
Lemma assertPermission_left authCtx node cap e :
  assertPermission authCtx node cap = Left e -> e = ForbiddenError.
Proof.
  unfold assertPermission.
  repeat match goal with
         | |- context [if ?b then _ else _] => destruct b
         end; congruence.
Qed.

(** The guard only grows with the three explicit grant sets. *)
Lemma assertPermission_mono authCtx node cap ps ps' :
  (forall c, includes Permission_eqb (Permissions.anonymous ps) c = true ->
             includes Permission_eqb (Permissions.anonymous ps') c = true) ->
  (forall c, includes Permission_eqb (Permissions.group ps) c = true ->
             includes Permission_eqb (Permissions.group ps') c = true) ->
  (forall c, includes Permission_eqb (Permissions.authenticated ps) c = true ->
             includes Permission_eqb (Permissions.authenticated ps') c = true) ->
  assertPermission authCtx (Node.with_permissions node ps) cap = Right tt ->
  assertPermission authCtx (Node.with_permissions node ps') cap = Right tt.
Proof.
  intros Ha Hg Hu.
  unfold assertPermission, isFolder, isRootFolder; simpl.
  destruct (Node.variant node); simpl; try reflexivity.
  destruct (isAdmin (principal authCtx)); simpl; try reflexivity.
  destruct (Node.uuid node =? ROOT_FOLDER_UUID); simpl.
  - destruct (Permission_eqb cap Read); simpl; congruence.
  - destruct (Node.owner node =? UserPrincipal.email (principal authCtx));
      try reflexivity.
    destruct (includes Permission_eqb (Permissions.anonymous ps) cap) eqn:Ea.
    + now rewrite (Ha _ Ea).
    + destruct (includes Permission_eqb (Permissions.anonymous ps') cap);
        try reflexivity.
      destruct (includes String.eqb (UserPrincipal.groups (principal authCtx))
                  (Node.group node)); simpl.
      * destruct (includes Permission_eqb (Permissions.group ps) cap) eqn:Eg.
        -- now rewrite (Hg _ Eg).
        -- destruct (includes Permission_eqb (Permissions.group ps') cap);
             try reflexivity.
           destruct (negb (UserPrincipal.email (principal authCtx)
                           =? ANONYMOUS_USER_EMAIL)); simpl; try congruence.
           destruct (includes Permission_eqb (Permissions.authenticated ps) cap)
             eqn:Eu; try congruence.
           now rewrite (Hu _ Eu).
      * destruct (negb (UserPrincipal.email (principal authCtx)
                        =? ANONYMOUS_USER_EMAIL)); simpl; try congruence.
        destruct (includes Permission_eqb (Permissions.authenticated ps) cap)
          eqn:Eu; try congruence.
        now rewrite (Hu _ Eu).
Qed.

(** C1. The permission decision of [#assertPermission] is the nine-rule
    ladder of section 4.1 evaluated in order, first match winning: the
    ladder always decides, and the guard returns that decision. *)
Theorem assertPermission_is_ladder authCtx node cap :
  option_map result_of (ladder_decision (principal authCtx) node cap)
  = Some (assertPermission authCtx node cap).
Proof.
  unfold ladder_decision, ladder, first_match, assertPermission.
  unfold rule_not_folder, rule_admin, rule_root_read, rule_root_other,
    rule_owner, rule_anonymous, rule_group, rule_authenticated,
    rule_otherwise, decide_if.
  rewrite (String.eqb_sym (UserPrincipal.email (principal authCtx))
             (Node.owner node)).
  destruct (isFolder node); simpl; [ | reflexivity ].
  destruct (isAdmin (principal authCtx)) eqn:Eadmin; simpl; [ reflexivity | ].
  destruct (isRootFolder node); simpl.
  - destruct (Permission_eqb cap Read); reflexivity.
  - destruct (Node.owner node =? UserPrincipal.email (principal authCtx));
      [ reflexivity | ].
    destruct (includes Permission_eqb
                (Permissions.anonymous (Node.permissions node)) cap);
      [ reflexivity | ].
    destruct (includes String.eqb (UserPrincipal.groups (principal authCtx))
                (Node.group node)
              && includes Permission_eqb
                   (Permissions.group (Node.permissions node)) cap);
      [ reflexivity | ].
    destruct (negb (UserPrincipal.email (principal authCtx)
                    =? ANONYMOUS_USER_EMAIL)
              && includes Permission_eqb
                   (Permissions.authenticated (Node.permissions node)) cap);
      reflexivity.
Qed.

(** C2, as amended. For every non-admin principal whose email is the
    owner of a folder, the decision is Granted for every capability and
    whatever the folder's permission set holds, provided the folder is not
    the Root folder or the capability is Read; on the Root folder the
    owner who is not admin is denied Write and Export. *)
Theorem owner_granted_outside_root authCtx f cap ps :
  isAdmin (principal authCtx) = false ->
  isFolder f = true ->
  UserPrincipal.email (principal authCtx) = Node.owner f ->
  (isRootFolder f = false \/ cap = Read ->
   assertPermission authCtx (Node.with_permissions f ps) cap = Right tt)
  /\ (isRootFolder f = true -> cap <> Read ->
      assertPermission authCtx (Node.with_permissions f ps) cap
      = Left ForbiddenError).
Proof.
  intros Hadmin Hfolder Howner.
  unfold assertPermission, isFolder, isRootFolder in *; simpl.
  destruct (Node.variant f); try discriminate; simpl.
  rewrite Hadmin, Howner, String.eqb_refl; simpl.
  split.
  - intros [Hroot | Hread].
    + now rewrite Hroot.
    + subst cap. simpl. now destruct (Node.uuid f =? ROOT_FOLDER_UUID).
  - intros Hroot Hcap. rewrite Hroot; simpl.
    destruct cap; simpl; congruence.
Qed.

(** C3. Adding a capability to the anonymous, group or authenticated set
    of a folder's permission set never turns a Granted decision into
    Denied, for any principal and any requested capability. *)
Theorem grants_are_monotonic authCtx f cap c :
  assertPermission authCtx f cap = Right tt ->
  assertPermission authCtx
    (Node.with_permissions f (grantAnonymous c (Node.permissions f))) cap
  = Right tt
  /\ assertPermission authCtx
       (Node.with_permissions f (grantGroup c (Node.permissions f))) cap
     = Right tt
  /\ assertPermission authCtx
       (Node.with_permissions f (grantAuthenticated c (Node.permissions f))) cap
     = Right tt.
Proof.
  intros Hgranted.
  assert (Hsame : Node.with_permissions f (Node.permissions f) = f)
    by now destruct f.
  rewrite <- Hsame in Hgranted.
  repeat split;
    (eapply assertPermission_mono; [ | | | exact Hgranted ]; simpl;
     intros x Hx; try exact Hx; rewrite includes_push, Hx; reflexivity).
Qed.

End GuardFacts.

(* ------------------------------------------------------------------ *)
(** ** The orchestrator                                                *)
(* ------------------------------------------------------------------ *)

Section OrchestratorFacts.
Context `{Statics} {S : Type} `{NodeService S} `{ActionRepository S}.

Ltac run_m := unfold bind, ret, query, mutate, notify in *; simpl in *.

Ltac no_inner_match x :=
  lazymatch x with
  | context [match _ with _ => _ end] => fail
  | _ => idtac
  end.

Ltac case_step :=
  match goal with
  | |- context [let (_, _) := ?x in _] => no_inner_match x; destruct x eqn:?
  | |- context [isRight ?x] => no_inner_match x; destruct x eqn:?
  | |- context [isLeft ?x] => no_inner_match x; destruct x eqn:?
  | |- context [match ?x with _ => _ end] => no_inner_match x; destruct x eqn:?
  | |- context [if ?x then _ else _] => no_inner_match x; destruct x eqn:?
  end; simpl in *.

(** Closes the case where one event was published: exhibits the event,
    the mutation that returned [Right] and the reads made before it. *)
Ltac after_mutation :=
  right; repeat rewrite <- app_assoc; simpl;
  do 2 eexists;
  first [ exists []; (split; [ | split; reflexivity ]); reflexivity
        | eexists [_]; (split; [ | split; reflexivity ]); reflexivity
        | eexists [_; _]; (split; [ | split; reflexivity ]); reflexivity
        | eexists [_; _; _]; (split; [ | split; reflexivity ]); reflexivity
        | eexists [_; _; _; _]; (split; [ | split; reflexivity ]); reflexivity ].

Lemma resolveFolder_eq auth uuid permission s :
  resolveFolder auth uuid permission s
  = match nodeService_get uuid s with
    | Left e => Left e
    | Right folder =>
        if negb (isFolder folder)
        then Left (BadRequestError "Is not a folder")
        else match assertPermission auth folder permission with
             | Left e => Left e
             | Right _ => Right folder
             end
    end.
Proof.
  unfold resolveFolder, getFolderWithPermission. run_m.
  repeat case_step; reflexivity.
Qed.

(** [#getFolderWithPermission] reads the store once and changes nothing. *)
Lemma getFolderWithPermission_run auth uuid permission w :
  getFolderWithPermission auth uuid permission w
  = (resolveFolder auth uuid permission (store w),
     mkWorld (store w) (published w)
       (journal w ++ [(CallGet uuid, isRight (nodeService_get uuid (store w)))])).
Proof.
  rewrite resolveFolder_eq.
  unfold getFolderWithPermission. run_m.
  repeat case_step; reflexivity.
Qed.

Ltac orch :=
  run_m;
  repeat first [ rewrite getFolderWithPermission_run; simpl in *
               | case_step ].

Ltac only_after_success :=
  intros w; orch;
  (split; [ intros; try discriminate; reflexivity | ]);
  first [ left; reflexivity | after_mutation ].

(** C4. In each mutation operation of the orchestrator (createFile,
    createMetanode, createFolder, update, updateFolder, updateFile, copy,
    delete) an event is published only when the delegated store operation
    has returned success: a call that fails, in the store or before it
    is reached, publishes nothing. *)
Theorem events_only_after_store_success :
  (forall authCtx file metadata,
      publishesOnlyAfterSuccess (createFile authCtx file metadata))
  /\ (forall authCtx metadata,
         publishesOnlyAfterSuccess (createMetanode authCtx metadata))
  /\ (forall authCtx metadata,
         publishesOnlyAfterSuccess (createFolder authCtx metadata))
  /\ (forall authCtx uuid metadata merge,
         publishesOnlyAfterSuccess (update authCtx uuid metadata merge))
  /\ (forall authCtx folder metadata,
         publishesOnlyAfterSuccess (updateFolder authCtx folder metadata))
  /\ (forall authCtx uuid file,
         publishesOnlyAfterSuccess (updateFile authCtx uuid file))
  /\ (forall authCtx uuid parent,
         publishesOnlyAfterSuccess (copy authCtx uuid parent))
  /\ (forall authCtx uuid,
         publishesOnlyAfterSuccess (delete authCtx uuid)).
Proof.
  repeat match goal with |- _ /\ _ => split end;
    intros; unfold publishesOnlyAfterSuccess.
  - unfold createFile. only_after_success.
  - unfold createMetanode. only_after_success.
  - unfold createFolder. only_after_success.
  - unfold update, updateFolder. only_after_success.
  - unfold updateFolder. only_after_success.
  - unfold updateFile. only_after_success.
  - unfold copy, get, getFolder. only_after_success.
  - unfold delete. only_after_success.
Qed.

Lemma resolveFolder_failure auth uuid permission s e :
  resolveFolder auth uuid permission s = Left e
  <-> FolderFailure auth uuid permission s e.
Proof.
  rewrite resolveFolder_eq. split.
  - destruct (nodeService_get uuid s) as [e' | n] eqn:Eget.
    + intros [= ->]. now apply ParentMissing.
    + destruct (isFolder n) eqn:Efolder; simpl.
      * destruct (assertPermission auth n permission) eqn:Eperm;
          intros [= ->].
        eapply ParentUnauthorized; eassumption.
      * intros [= <-]. eapply ParentNotFolder; eassumption.
  - intros [e' Hget | n Hget Hfolder | n e' Hget Hfolder Hperm];
      rewrite Hget; try rewrite Hfolder; simpl; try rewrite Hperm;
      reflexivity.
Qed.

Ltac only_gets :=
  unfold onlyGets; simpl; repeat rewrite <- app_assoc; simpl;
  eexists; split; reflexivity.

(** [duplicate] hands nothing to the event bus, whatever the store
    answers. *)
Lemma duplicate_never_notifies authCtx uuid w :
  published (snd (duplicate authCtx uuid w)) = published w.
Proof.
  unfold duplicate, get, getFolder. orch; reflexivity.
Qed.

(** [createFolder] refuses a parent in the system area before it looks
    anything up. *)
Lemma createFolder_rejects_system_parent authCtx metadata w :
  isSystemFolder (Partial.parent metadata) = true ->
  createFolder authCtx metadata w
  = (Left (BadRequestError "Cannot create folders in system folder"), w).
Proof. intros Hsys. unfold createFolder. now rewrite Hsys. Qed.

(** C6. [update] with [metadata.parent] set to a folder on which the
    principal lacks Write returns Forbidden; the only store calls made are
    lookups, so [nodeService.update] is not invoked, the store (hence the
    node, its parent included) is unchanged, and nothing is published. *)
Theorem update_move_without_write_is_forbidden
    authCtx uuid metadata merge w node dest g :
  nodeService_get uuid (store w) = Right node ->
  Partial.parent metadata = Some dest ->
  dest <> "" ->
  nodeService_get dest (store w) = Right g ->
  isFolder g = true ->
  assertPermission authCtx g Write = Left ForbiddenError ->
  exists w',
    update authCtx uuid metadata merge w = (Left ForbiddenError, w')
    /\ onlyGets w w'
    /\ store w' = store w
    /\ nodeService_get uuid (store w') = Right node
    /\ published w' = published w.
Proof.
  intros Hnode Hparent Hset Hdest Hfolder Hdenied.
  assert (Hres : resolveFolder authCtx dest Write (store w) = Left ForbiddenError).
  { apply resolveFolder_failure. eapply ParentUnauthorized; eassumption. }
  apply String.eqb_neq in Hset.
  unfold update, updateFolder. run_m. rewrite Hnode, Hparent. simpl.
  rewrite Hset. simpl.
  destruct (isFolder node).
  - destruct (assertCanWrite authCtx node) as [e | []] eqn:Eself.
    + apply assertPermission_left in Eself. subst e.
      eexists. split; [ reflexivity | ].
      repeat split; simpl; try assumption. only_gets.
    + rewrite getFolderWithPermission_run. simpl. rewrite Hres. simpl.
      eexists. split; [ reflexivity | ].
      repeat split; simpl; try assumption. only_gets.
  - rewrite getFolderWithPermission_run. simpl.
    destruct (resolveFolder authCtx (Node.parent node) Write (store w)); simpl.
    + eexists. split; [ reflexivity | ].
      repeat split; simpl; try assumption. only_gets.
    + rewrite getFolderWithPermission_run. simpl. rewrite Hres. simpl.
      eexists. split; [ reflexivity | ].
      repeat split; simpl; try assumption. only_gets.
Qed.

(** C9. Whenever [createFolder] succeeds, the store was asked to create
    the folder with the principal's email as owner, the principal's group
    as group and the resolved parent's permission set, whatever the
    caller's metadata held in those fields; with a store that builds the
    folder from the metadata it is given, the created folder has that
    owner, group and permission set. *)
Theorem createFolder_stamps_owner_group_permissions
    authCtx metadata w node w' :
  createFolderHonoursMetadata ->
  createFolder authCtx metadata w = (Right node, w') ->
  exists parent requested,
    resolveFolder authCtx
      (nullish (Partial.parent metadata) ROOT_FOLDER_UUID) Write (store w)
    = Right parent
    /\ nodeService_createFolder requested (store w) = (Right node, store w')
    /\ Partial.owner requested = Some (UserPrincipal.email (principal authCtx))
    /\ Partial.group requested = Some (UserPrincipal.group (principal authCtx))
    /\ Partial.permissions requested = Some (Node.permissions parent)
    /\ Node.owner node = UserPrincipal.email (principal authCtx)
    /\ Node.group node = UserPrincipal.group (principal authCtx)
    /\ Node.permissions node = Node.permissions parent.
Proof.
  intros Hstore. unfold createFolder.
  destruct (isSystemFolder (Partial.parent metadata)); [ discriminate | ].
  run_m. rewrite getFolderWithPermission_run. simpl.
  destruct (resolveFolder authCtx
              (nullish (Partial.parent metadata) ROOT_FOLDER_UUID) Write
              (store w)) as [e | parent] eqn:Eparent; simpl;
    [ discriminate | ].
  destruct (nodeService_createFolder
              (folderMetadata authCtx metadata parent) (store w))
    as [[e | created] s'] eqn:Ecreate; simpl; [ discriminate | ].
  intros [= -> <-]. simpl.
  destruct (Hstore _ _ _ _ Ecreate) as (Ho & Hg & Hp).
  exists parent, (folderMetadata authCtx metadata parent).
  repeat split; auto.
Qed.

(** C10. [update] on a node that is not a folder answers Forbidden for
    every failure to resolve or authorize the current parent (the parent is
    missing, is not a folder, or refuses Write) and, on a move, for every
    such failure on the destination parent: whatever error [e] the lookup
    produced, the caller sees Forbidden, and nothing is changed. *)
Theorem update_masks_parent_failure_as_forbidden
    authCtx uuid metadata merge w node e :
  nodeService_get uuid (store w) = Right node ->
  isFolder node = false ->
  FolderFailure authCtx (Node.parent node) Write (store w) e
  \/ (exists dest,
         Partial.parent metadata = Some dest
         /\ dest <> ""
         /\ FolderFailure authCtx dest Write (store w) e) ->
  fst (update authCtx uuid metadata merge w) = Left ForbiddenError
  /\ onlyGets w (snd (update authCtx uuid metadata merge w))
  /\ store (snd (update authCtx uuid metadata merge w)) = store w
  /\ published (snd (update authCtx uuid metadata merge w)) = published w.
Proof.
  intros Hnode Hfile Hfail.
  unfold update. run_m. rewrite Hnode. simpl. rewrite Hfile.
  rewrite getFolderWithPermission_run. simpl.
  destruct Hfail as [Hcur | (dest & Hparent & Hset & Hdest)].
  - apply resolveFolder_failure in Hcur. rewrite Hcur. simpl.
    repeat split. only_gets.
  - apply resolveFolder_failure in Hdest. apply String.eqb_neq in Hset.
    destruct (resolveFolder authCtx (Node.parent node) Write (store w)); simpl.
    + repeat split. only_gets.
    + rewrite Hparent. simpl. rewrite Hset. simpl.
      rewrite getFolderWithPermission_run. simpl. rewrite Hdest. simpl.
      repeat split. only_gets.
Qed.

(* ------------------------------------------------------------------ *)
(** *** Reads, guards and events of the remaining operations           *)
(* ------------------------------------------------------------------ *)

Lemma resolveFolder_granted auth uuid permission s folder :
  resolveFolder auth uuid permission s = Right folder
  <-> nodeService_get uuid s = Right folder
      /\ isFolder folder = true
      /\ assertPermission auth folder permission = Right tt.
Proof.
  rewrite resolveFolder_eq. split.
  - destruct (nodeService_get uuid s) as [ e | n ]; [ discriminate | ].
    destruct (isFolder n) eqn:Efolder; simpl; [ | discriminate ].
    destruct (assertPermission auth n permission) as [ e | [] ] eqn:Eperm;
      [ discriminate | ].
    intros [= <-]. auto.
  - intros (-> & -> & ->). reflexivity.
Qed.

(** [get] reads the store at most twice and changes nothing. *)
Lemma get_run authCtx uuid w :
  exists calls,
    get authCtx uuid w
    = (readable authCtx uuid (store w),
       mkWorld (store w) (published w) (journal w ++ calls))
    /\ forallb (fun entry => isGet (fst entry)) calls = true.
Proof.
  unfold readable, get, getFolder. orch;
    repeat rewrite <- app_assoc; simpl;
    eexists; split; reflexivity.
Qed.

Ltac reads_only :=
  intros w; orch; repeat split; repeat rewrite <- app_assoc; simpl;
  eexists; split; reflexivity.

(** X6. The reading operations [get], [list], [export] and
    [#getFolderWithPermission] leave the store as it is, publish nothing
    and never call a mutation of the node store, whatever they answer. *)
Theorem reading_operations_read_only :
  (forall auth uuid permission,
      readsOnly (getFolderWithPermission auth uuid permission))
  /\ (forall authCtx uuid, readsOnly (get authCtx uuid))
  /\ (forall authCtx uuid, readsOnly (list_ authCtx uuid))
  /\ (forall authCtx uuid, readsOnly (export authCtx uuid)).
Proof.
  repeat match goal with |- _ /\ _ => split end;
    intros; unfold readsOnly.
  - unfold getFolderWithPermission. reads_only.
  - unfold get, getFolder. reads_only.
  - unfold list_. reads_only.
  - unfold export. reads_only.
Qed.

(** X7. [get] answers with a node exactly when the store holds it and
    the principal may read it: a folder must grant Read itself; any other
    node is readable exactly when its parent is a stored folder that
    grants Read, whatever the node's own owner or permission set. *)
Theorem get_answers_exactly_the_readable authCtx uuid w node :
  fst (get authCtx uuid w) = Right node
  <-> nodeService_get uuid (store w) = Right node
      /\ if isFolder node
         then assertPermission authCtx node Read = Right tt
         else exists parent,
                nodeService_get (Node.parent node) (store w) = Right parent
                /\ isFolder parent = true
                /\ assertPermission authCtx parent Read = Right tt.
Proof.
  unfold get, getFolder, assertCanRead. run_m.
  destruct (nodeService_get uuid (store w)) as [ e | n ] eqn:Eget; simpl.
  - split; [ discriminate | intros [[=] _] ].
  - destruct (isFolder n) eqn:Efolder; simpl.
    + destruct (assertPermission authCtx n Read) as [ e | [] ] eqn:Eperm;
        simpl; split.
      * discriminate.
      * intros [[= <-] Hread]. rewrite Efolder in Hread. congruence.
      * intros [= <-]. rewrite Efolder. auto.
      * intros [[= <-] _]. reflexivity.
    + rewrite getFolderWithPermission_run. simpl.
      destruct (resolveFolder authCtx (Node.parent n) Read (store w))
        as [ e | parent ] eqn:Eparent; simpl; split.
      * discriminate.
      * intros [[= <-] Hread]. rewrite Efolder in Hread.
        destruct Hread as (parent & Hparent).
        apply resolveFolder_granted in Hparent. congruence.
      * intros [= <-]. rewrite Efolder. split; [ reflexivity | ].
        exists parent. now apply resolveFolder_granted.
      * intros [[= <-] _]. reflexivity.
Qed.

(** X8. When [list] succeeds, the listed folder granted Read, and the
    answer is the store's list of children, in order, without the folders
    the principal may not read: a child is listed exactly when the store
    lists it and it is not a folder or grants Read. *)
Theorem list_hides_unreadable_folders authCtx uuid w listed :
  fst (list_ authCtx uuid w) = Right listed ->
  exists children,
    grantedOn authCtx (nullish uuid ROOT_FOLDER_UUID) Read (store w)
    /\ nodeService_list (nullish uuid ROOT_FOLDER_UUID) (store w)
       = Right children
    /\ listed
       = filter (fun n => negb (isFolder n)
                          || isRight (assertPermission authCtx n Read))
           children
    /\ forall n,
         In n listed
         <-> In n children
             /\ (isFolder n = true ->
                 assertPermission authCtx n Read = Right tt).
Proof.
  unfold list_, assertCanRead, grantedOn. run_m.
  rewrite getFolderWithPermission_run. simpl.
  destruct (resolveFolder authCtx (nullish uuid ROOT_FOLDER_UUID) Read (store w))
    as [ e | folder ] eqn:Efolder; simpl; [ discriminate | ].
  destruct (nodeService_list (nullish uuid ROOT_FOLDER_UUID) (store w))
    as [ e | children ] eqn:Elist; simpl; [ discriminate | ].
  intros [= <-]. exists children.
  split; [ eauto | ]. split; [ reflexivity | ]. split; [ reflexivity | ].
  intros n. rewrite filter_In. split; intros [Hin Hkeep]; split; auto.
  - intros Hfolder. rewrite Hfolder in Hkeep. simpl in Hkeep.
    destruct (assertPermission authCtx n Read) as [ e | [] ];
      [ discriminate | reflexivity ].
  - destruct (isFolder n); [ | reflexivity ].
    now rewrite Hkeep.
Qed.

Ltac publishes_on_success :=
  intros w; orch; repeat rewrite <- app_assoc; reflexivity.

(** X9. Each of these mutations publishes exactly one event when it
    succeeds and none when it fails: NodeCreated with the caller's email
    and the node the store returned for [createMetanode], [createFolder],
    [copy] and (outside the action, aspect and extension folders)
    [createFile]; NodeContentUpdated for [updateFile]; NodeDeleted for
    [delete]. *)
Theorem successful_mutations_publish_their_event :
  (forall authCtx metadata,
      publishesOnSuccess (createMetanode authCtx metadata)
        (NodeCreatedEvent (UserPrincipal.email (principal authCtx))))
  /\ (forall authCtx metadata,
         publishesOnSuccess (createFolder authCtx metadata)
           (NodeCreatedEvent (UserPrincipal.email (principal authCtx))))
  /\ (forall authCtx file metadata,
         isActionsFolder (Partial.parent metadata)
         || isAspectsFolder (Partial.parent metadata)
         || isExtensionsFolder (Partial.parent metadata) = false ->
         publishesOnSuccess (createFile authCtx file metadata)
           (NodeCreatedEvent (UserPrincipal.email (principal authCtx))))
  /\ (forall authCtx uuid parent,
         publishesOnSuccess (copy authCtx uuid parent)
           (NodeCreatedEvent (UserPrincipal.email (principal authCtx))))
  /\ (forall authCtx uuid file,
         publishesOnSuccess (updateFile authCtx uuid file)
           (fun _ => NodeContentUpdatedEvent
                       (UserPrincipal.email (principal authCtx)) uuid))
  /\ (forall authCtx uuid,
         publishesOnSuccess (delete authCtx uuid)
           (fun _ => NodeDeletedEvent
                       (UserPrincipal.email (principal authCtx)) uuid)).
Proof.
  repeat match goal with |- _ /\ _ => split end;
    intros; unfold publishesOnSuccess.
  - unfold createMetanode. publishes_on_success.
  - unfold createFolder. publishes_on_success.
  - match goal with
    | Hplain : _ || _ || _ = false |- _ =>
        apply orb_false_iff in Hplain as [Hplain Hext];
        apply orb_false_iff in Hplain as [Hact Hasp]
    end.
    unfold createFile. rewrite Hact, Hasp, Hext. publishes_on_success.
  - unfold copy, get, getFolder. publishes_on_success.
  - unfold updateFile. publishes_on_success.
  - unfold delete. publishes_on_success.
Qed.

(** X10. The NodeUpdated event of a successful [update] names the
    caller only for nodes that are not folders; for a folder the event's
    actor is the folder's owner, whoever made the call. A failed [update]
    publishes nothing. *)
Theorem update_event_names_the_folder_owner
    authCtx uuid metadata merge w node :
  nodeService_get uuid (store w) = Right node ->
  published (snd (update authCtx uuid metadata merge w))
  = match fst (update authCtx uuid metadata merge w) with
    | Right _ =>
        published w
        ++ [ if isFolder node
             then NodeUpdatedEvent (Node.owner node) (Node.uuid node) metadata
             else NodeUpdatedEvent (UserPrincipal.email (principal authCtx))
                    uuid metadata ]
    | Left _ => published w
    end.
Proof.
  intros Hnode. unfold update, updateFolder. run_m. rewrite Hnode. simpl.
  destruct (isFolder node); orch; reflexivity.
Qed.

(** X12. [updateFile] consults no permission: outside the system
    folders it hands the call to the node store for any principal, and its
    answer and the resulting store are the same whoever calls. *)
Theorem updateFile_checks_no_permission authCtx authCtx' uuid file w :
  fst (updateFile authCtx uuid file w) = fst (updateFile authCtx' uuid file w)
  /\ store (snd (updateFile authCtx uuid file w))
     = store (snd (updateFile authCtx' uuid file w))
  /\ (isSystemFolder (Some uuid) = false ->
      fst (updateFile authCtx uuid file w)
      = fst (nodeService_updateFile uuid file (store w))
      /\ store (snd (updateFile authCtx uuid file w))
         = snd (nodeService_updateFile uuid file (store w))).
Proof.
  unfold updateFile. run_m.
  destruct (isSystemFolder (Some uuid)); simpl.
  - repeat split; discriminate.
  - destruct (nodeService_updateFile uuid file (store w)) as [[ e | [] ] s'];
      simpl; repeat split.
Qed.

(** X13. For a folder, [update] drops the [merge] flag: the outcome is
    the same for every value of [merge], and the only mutation asked of
    the node store is [update(folder.uuid, metadata)] without the flag. *)
Theorem update_of_a_folder_ignores_merge
    authCtx uuid metadata merge w node :
  nodeService_get uuid (store w) = Right node ->
  isFolder node = true ->
  update authCtx uuid metadata merge w = update authCtx uuid metadata None w
  /\ forall entry,
       In entry (journal (snd (update authCtx uuid metadata merge w))) ->
       In entry (journal w)
       \/ isMutation (fst entry) = false
       \/ fst entry = CallUpdate (Node.uuid node) metadata None.
Proof.
  intros Hnode Hfolder. unfold update. run_m. rewrite Hnode. simpl.
  rewrite Hfolder. split; [ reflexivity | ].
  unfold updateFolder. orch; intros entry Hin;
    repeat (apply in_app_or in Hin as [Hin | Hin]; simpl in Hin);
    auto;
    repeat match goal with
           | Hor : _ \/ _ |- _ => destruct Hor
           | Hfalse : False |- _ => contradiction
           end; subst; simpl; auto.
Qed.

Ltac no_effect :=
  let Hr := fresh "Hr" in
  let Hs := fresh "Hs" in
  let Hp := fresh "Hp" in
  intros [Hr | [Hs | Hp]];
  [ discriminate Hr
  | exfalso; apply Hs; reflexivity
  | exfalso; apply Hp; reflexivity ].

(** X11. The guarded mutations have an effect (a [Right] answer, a
    changed store or a published event) only for a principal holding
    Write where the operation asks for it: on the parent given in the
    metadata (Root when none is given) for [createMetanode], for
    [createFolder], which also refuses the system folders, and for
    [createFile] unless the parent is the action, aspect or extension
    folder, where the call is handed on without a check; on the
    destination for [copy], whose source must be readable; on the source's
    parent for [duplicate], whose source must be readable; and for
    [delete] on the node's parent and, for a folder, on the folder
    itself. *)
Theorem mutations_require_write :
  (forall authCtx metadata,
      requires (createMetanode authCtx metadata)
        (fun w => grantedOn authCtx
                    (nullish (Partial.parent metadata) ROOT_FOLDER_UUID)
                    Write (store w)))
  /\ (forall authCtx metadata,
         requires (createFolder authCtx metadata)
           (fun w => isSystemFolder (Partial.parent metadata) = false
                     /\ grantedOn authCtx
                          (nullish (Partial.parent metadata) ROOT_FOLDER_UUID)
                          Write (store w)))
  /\ (forall authCtx file metadata,
         requires (createFile authCtx file metadata)
           (fun w => isActionsFolder (Partial.parent metadata)
                     || isAspectsFolder (Partial.parent metadata)
                     || isExtensionsFolder (Partial.parent metadata) = true
                     \/ grantedOn authCtx
                          (nullish (Partial.parent metadata) ROOT_FOLDER_UUID)
                          Write (store w)))
  /\ (forall authCtx uuid parent,
         requires (copy authCtx uuid parent)
           (fun w => grantedOn authCtx parent Write (store w)
                     /\ isRight (readable authCtx uuid (store w)) = true))
  /\ (forall authCtx uuid,
         requires (duplicate authCtx uuid)
           (fun w => exists node,
                       readable authCtx uuid (store w) = Right node
                       /\ grantedOn authCtx (Node.parent node) Write (store w)))
  /\ (forall authCtx uuid,
         requires (delete authCtx uuid)
           (fun w => exists node,
                       nodeService_get uuid (store w) = Right node
                       /\ (isFolder node = true ->
                           assertPermission authCtx node Write = Right tt)
                       /\ grantedOn authCtx (Node.parent node) Write (store w))).
Proof.
  repeat match goal with |- _ /\ _ => split end;
    intros; unfold requires, grantedOn; intros w.
  - unfold createMetanode. run_m. rewrite getFolderWithPermission_run. simpl.
    destruct (resolveFolder authCtx
                (nullish (Partial.parent metadata) ROOT_FOLDER_UUID) Write
                (store w)) as [ e | folder ]; simpl;
      [ no_effect | intros _; eauto ].
  - unfold createFolder.
    destruct (isSystemFolder (Partial.parent metadata)); simpl;
      [ no_effect | ].
    run_m. rewrite getFolderWithPermission_run. simpl.
    destruct (resolveFolder authCtx
                (nullish (Partial.parent metadata) ROOT_FOLDER_UUID) Write
                (store w)) as [ e | folder ]; simpl;
      [ no_effect | intros _; eauto ].
  - unfold createFile.
    destruct (isActionsFolder (Partial.parent metadata)); simpl;
      [ intros _; left; reflexivity | ].
    destruct (isAspectsFolder (Partial.parent metadata)); simpl;
      [ intros _; left; reflexivity | ].
    destruct (isExtensionsFolder (Partial.parent metadata)); simpl;
      [ intros _; left; reflexivity | ].
    run_m. rewrite getFolderWithPermission_run. simpl.
    destruct (resolveFolder authCtx
                (nullish (Partial.parent metadata) ROOT_FOLDER_UUID) Write
                (store w)) as [ e | folder ]; simpl;
      [ no_effect | intros _; right; eauto ].
  - unfold copy. run_m. rewrite getFolderWithPermission_run. simpl.
    destruct (resolveFolder authCtx parent Write (store w))
      as [ e | folder ]; simpl; [ no_effect | ].
    match goal with
    | |- context [get authCtx uuid ?w1] =>
        destruct (get_run authCtx uuid w1) as (calls & -> & _)
    end. simpl.
    destruct (readable authCtx uuid (store w)) as [ e | node ]; simpl;
      [ no_effect | intros _; eauto ].
  - unfold duplicate. run_m.
    destruct (get_run authCtx uuid w) as (calls & -> & _). simpl.
    destruct (readable authCtx uuid (store w)) as [ e | node ] eqn:Eread;
      simpl; [ no_effect | ].
    rewrite getFolderWithPermission_run. simpl.
    destruct (resolveFolder authCtx (Node.parent node) Write (store w))
      as [ e | folder ] eqn:Eparent; simpl; [ no_effect | intros _; eauto ].
  - unfold delete, assertCanWrite. run_m.
    destruct (nodeService_get uuid (store w)) as [ e | node ] eqn:Enode;
      simpl; [ no_effect | ].
    destruct (isFolder node) eqn:Efolder; simpl.
    + destruct (assertPermission authCtx node Write) as [ e | [] ] eqn:Eself;
        simpl; [ no_effect | ].
      rewrite getFolderWithPermission_run. simpl.
      destruct (resolveFolder authCtx (Node.parent node) Write (store w))
        as [ e | folder ] eqn:Eparent; simpl;
        [ no_effect | intros _; eauto 6 ].
    + rewrite getFolderWithPermission_run. simpl.
      destruct (resolveFolder authCtx (Node.parent node) Write (store w))
        as [ e | folder ] eqn:Eparent; simpl; [ no_effect | ].
      intros _. exists node.
      split; [ reflexivity | ]. split; [ congruence | eauto ].
Qed.

(** X14. The same for [update]: it has an effect only on a stored node,
    for a principal holding Write on the node itself when it is a folder
    and on its current parent otherwise, and, when the metadata names a new
    parent, holding Write on that folder too. *)
Theorem update_requires_write authCtx uuid metadata merge :
  requires (update authCtx uuid metadata merge)
    (fun w =>
       exists node,
         nodeService_get uuid (store w) = Right node
         /\ (if isFolder node
             then assertPermission authCtx node Write = Right tt
             else grantedOn authCtx (Node.parent node) Write (store w))
         /\ forall dest,
              Partial.parent metadata = Some dest ->
              dest <> "" ->
              grantedOn authCtx dest Write (store w)).
Proof.
  unfold requires, grantedOn. intros w.
  assert (Hdest :
            forall dest0 folder,
              Partial.parent metadata = Some dest0 ->
              resolveFolder authCtx dest0 Write (store w) = Right folder ->
              forall dest,
                Partial.parent metadata = Some dest -> dest <> "" ->
                exists f, resolveFolder authCtx dest Write (store w) = Right f).
  { intros dest0 folder Hset0 Hres dest Hset1 _.
    rewrite Hset0 in Hset1. injection Hset1 as <-. eauto. }
  assert (Hempty :
            forall dest0,
              Partial.parent metadata = Some dest0 ->
              negb (dest0 =? "") = false ->
              forall dest,
                Partial.parent metadata = Some dest -> dest <> "" ->
                exists f, resolveFolder authCtx dest Write (store w) = Right f).
  { intros dest0 Hset0 Hneg dest Hset1 Hset.
    rewrite Hset0 in Hset1. injection Hset1 as <-.
    apply negb_false_iff, String.eqb_eq in Hneg. contradiction. }
  assert (Hnone :
            Partial.parent metadata = None ->
            forall dest,
              Partial.parent metadata = Some dest -> dest <> "" ->
              exists f, resolveFolder authCtx dest Write (store w) = Right f).
  { intros Hset0 dest Hset1. congruence. }
  unfold update, updateFolder, assertCanWrite. run_m.
  destruct (nodeService_get uuid (store w)) as [ e | node ] eqn:Enode; simpl;
    [ no_effect | ].
  destruct (isFolder node) eqn:Efolder; simpl.
  - destruct (assertPermission authCtx node Write) as [ e | [] ] eqn:Eself;
      simpl; [ no_effect | ].
    destruct (Partial.parent metadata) as [ dest0 | ] eqn:Eparent; simpl.
    + destruct (negb (dest0 =? "")) eqn:Eset; simpl.
      * rewrite getFolderWithPermission_run. simpl.
        destruct (resolveFolder authCtx dest0 Write (store w))
          as [ e | folder ] eqn:Edest; simpl; [ no_effect | ].
        intros _. exists node. rewrite Efolder. eauto.
      * intros _. exists node. rewrite Efolder. eauto.
    + intros _. exists node. rewrite Efolder. eauto.
  - rewrite getFolderWithPermission_run. simpl.
    destruct (resolveFolder authCtx (Node.parent node) Write (store w))
      as [ e | parent ] eqn:Ecur; simpl; [ no_effect | ].
    destruct (Partial.parent metadata) as [ dest0 | ] eqn:Eparent; simpl.
    + destruct (negb (dest0 =? "")) eqn:Eset; simpl.
      * rewrite getFolderWithPermission_run. simpl.
        destruct (resolveFolder authCtx dest0 Write (store w))
          as [ e | folder ] eqn:Edest; simpl; [ no_effect | ].
        intros _. exists node. rewrite Efolder. eauto 6.
      * intros _. exists node. rewrite Efolder. eauto 6.
    + intros _. exists node. rewrite Efolder. eauto 6.
Qed.

Lemma root_denies_write authCtx root :
  isAdmin (principal authCtx) = false ->
  Node.uuid root = ROOT_FOLDER_UUID ->
  isFolder root = true ->
  assertPermission authCtx root Write = Left ForbiddenError.
Proof.
  intros Hadmin Huuid Hfolder.
  unfold assertPermission, isRootFolder.
  rewrite Hfolder, Hadmin, Huuid, String.eqb_refl. reflexivity.
Qed.

(** X15. Only an admin writes to the Root folder. With the Root folder
    stored under the root uuid, a principal who is not admin can neither
    create a metanode or a folder with no parent given or with the Root as
    parent, nor update or delete the Root itself, whatever the Root's owner
    and permission set: each call fails (Forbidden, except that
    [createFolder] may already refuse the parent as BadRequest) and the
    store is left as it is. *)
Theorem root_is_written_by_admins_only authCtx w root :
  isAdmin (principal authCtx) = false ->
  nodeService_get ROOT_FOLDER_UUID (store w) = Right root ->
  Node.uuid root = ROOT_FOLDER_UUID ->
  isFolder root = true ->
  (forall metadata,
      Partial.parent metadata = None
      \/ Partial.parent metadata = Some ROOT_FOLDER_UUID ->
      fst (createMetanode authCtx metadata w) = Left ForbiddenError
      /\ store (snd (createMetanode authCtx metadata w)) = store w
      /\ isLeft (fst (createFolder authCtx metadata w)) = true
      /\ store (snd (createFolder authCtx metadata w)) = store w)
  /\ (forall metadata merge,
         fst (update authCtx ROOT_FOLDER_UUID metadata merge w)
         = Left ForbiddenError
         /\ store (snd (update authCtx ROOT_FOLDER_UUID metadata merge w))
            = store w)
  /\ fst (delete authCtx ROOT_FOLDER_UUID w) = Left ForbiddenError
  /\ store (snd (delete authCtx ROOT_FOLDER_UUID w)) = store w.
Proof.
  intros Hadmin Hroot Huuid Hfolder.
  pose proof (root_denies_write authCtx root Hadmin Huuid Hfolder) as Hdenied.
  assert (Hres : resolveFolder authCtx ROOT_FOLDER_UUID Write (store w)
                 = Left ForbiddenError).
  { apply resolveFolder_failure. eapply ParentUnauthorized; eassumption. }
  repeat match goal with |- _ /\ _ => split end.
  - intros metadata Hparent.
    assert (Hnull : nullish (Partial.parent metadata) ROOT_FOLDER_UUID
                    = ROOT_FOLDER_UUID)
      by (destruct Hparent as [ -> | -> ]; reflexivity).
    unfold createMetanode, createFolder. rewrite Hnull.
    destruct (isSystemFolder (Partial.parent metadata)); run_m;
      rewrite !getFolderWithPermission_run; simpl; rewrite !Hres; simpl;
      repeat split.
  - intros metadata merge.
    unfold update, updateFolder, assertCanWrite. run_m.
    rewrite Hroot. simpl. rewrite Hfolder, Hdenied. simpl. split; reflexivity.
  - unfold delete, assertCanWrite. run_m.
    rewrite Hroot. simpl. rewrite Hfolder, Hdenied. reflexivity.
  - unfold delete, assertCanWrite. run_m.
    rewrite Hroot. simpl. rewrite Hfolder, Hdenied. reflexivity.
Qed.


(** X22. [export] returns a file exactly when the node is stored, the
    principal holds Export on the node's parent folder (for a folder too:
    its own permission set is not consulted), and the store exports the
    node; a failed lookup or check is returned as it is. *)
Theorem export_answers_exactly_the_exportable authCtx uuid w file :
  fst (export authCtx uuid w) = Right file
  <-> exists node,
        nodeService_get uuid (store w) = Right node
        /\ grantedOn authCtx (Node.parent node) Export (store w)
        /\ nodeService_export (Node.uuid node) (store w) = Right file.
Proof.
  unfold export, grantedOn. run_m.
  destruct (nodeService_get uuid (store w)) as [ e | node ] eqn:Enode; simpl.
  - split; [ discriminate | intros (n & [=] & _) ].
  - rewrite getFolderWithPermission_run. simpl.
    destruct (resolveFolder authCtx (Node.parent node) Export (store w))
      as [ e | folder ] eqn:Eparent; simpl.
    + split; [ discriminate | ].
      intros (n & [= <-] & (f & Hf) & _). congruence.
    + split.
      * intros Hexport. exists node. eauto.
      * intros (n & [= <-] & _ & Hexport). exact Hexport.
Qed.





End OrchestratorFacts.

(* ------------------------------------------------------------------ *)
(** ** The in-memory node repository                                   *)
(* ------------------------------------------------------------------ *)

Module Repo := InMemoryNodeRepository.

Lemma repo_find_records (db : Repo.Db) uuid :
  Forall (fun e => Node.uuid (snd e) = fst e) db ->
  find (fun n => Node.uuid n =? uuid) (Repo.records db)
  = option_map snd (find (fun e => fst e =? uuid) db).
Proof.
  unfold Repo.records.
  induction 1 as [ | e db He _ IH ]; simpl; [ reflexivity | ].
  rewrite He. destruct (fst e =? uuid); [ reflexivity | exact IH ].
Qed.

Lemma repo_has_false key (db : Repo.Db) :
  Repo.has key db = false ->
  Forall (fun e => (fst e =? key) = false) db.
Proof.
  unfold Repo.has. induction db as [ | e db IH ]; simpl; intros Hhas.
  - constructor.
  - apply orb_false_iff in Hhas as [He Hrest]. constructor; auto.
Qed.

(** A key the object does not have yet is inserted somewhere, and the
    properties before and after it keep their order. *)
Lemma repo_set_fresh key value (db : Repo.Db) :
  Repo.has key db = false ->
  exists before after,
    db = before ++ after
    /\ Repo.set key value db = before ++ (key, value) :: after.
Proof.
  intros Hhas. unfold Repo.set. rewrite Hhas.
  destruct (Repo.arrayIndex key) as [ i | ].
  - clear Hhas. induction db as [ | [k x] db IH ]; simpl.
    + exists [], []. split; reflexivity.
    + destruct (Repo.arrayIndex k) as [ j | ].
      * destruct (j <? i)%N.
        -- destruct IH as (before & after & Hdb & Hset).
           exists ((k, x) :: before), after. simpl.
           rewrite <- Hdb, Hset. split; reflexivity.
        -- exists [], ((k, x) :: db). split; reflexivity.
      * exists [], ((k, x) :: db). split; reflexivity.
  - exists db, []. rewrite app_nil_r. split; reflexivity.
Qed.

Lemma repo_set_existing_keys key value (db : Repo.Db) :
  Repo.has key db = true ->
  map fst (Repo.set key value db) = map fst db.
Proof.
  intros Hhas. unfold Repo.set. rewrite Hhas. clear Hhas.
  induction db as [ | e db IH ]; simpl; [ reflexivity | ].
  rewrite IH. destruct (fst e =? key) eqn:He; simpl; [ | reflexivity ].
  apply String.eqb_eq in He. now rewrite He.
Qed.

Lemma repo_find_set_same key value (db : Repo.Db) :
  find (fun e => fst e =? key) (Repo.set key value db) = Some (key, value).
Proof.
  destruct (Repo.has key db) eqn:Hhas.
  - unfold Repo.set. rewrite Hhas. unfold Repo.has in Hhas.
    induction db as [ | e db IH ]; simpl in *; [ discriminate | ].
    destruct (fst e =? key) eqn:He; simpl.
    + now rewrite String.eqb_refl.
    + rewrite He. apply IH. exact Hhas.
  - destruct (repo_set_fresh key value db Hhas)
      as (before & after & Hdb & Hset).
    rewrite Hset. apply repo_has_false in Hhas. rewrite Hdb in Hhas.
    apply Forall_app in Hhas as [Hbefore _].
    clear Hdb Hset. induction Hbefore as [ | e before He _ IH ]; simpl.
    + now rewrite String.eqb_refl.
    + now rewrite He.
Qed.

Lemma repo_find_set_other key value other (db : Repo.Db) :
  other <> key ->
  find (fun e => fst e =? other) (Repo.set key value db)
  = find (fun e => fst e =? other) db.
Proof.
  intros Hneq.
  assert (Hkey : (key =? other) = false)
    by (apply String.eqb_neq; congruence).
  destruct (Repo.has key db) eqn:Hhas.
  - unfold Repo.set. rewrite Hhas. clear Hhas.
    induction db as [ | e db IH ]; simpl; [ reflexivity | ].
    destruct (fst e =? key) eqn:He; simpl.
    + apply String.eqb_eq in He. rewrite He, Hkey. exact IH.
    + destruct (fst e =? other); [ reflexivity | exact IH ].
  - destruct (repo_set_fresh key value db Hhas)
      as (before & after & Hdb & Hset).
    rewrite Hset, Hdb. clear Hdb Hset Hhas.
    induction before as [ | e before IH ]; simpl.
    + now rewrite Hkey.
    + destruct (fst e =? other); [ reflexivity | exact IH ].
Qed.

Lemma repo_find_unset_same key (db : Repo.Db) :
  find (fun e => fst e =? key) (Repo.unset key db) = None.
Proof.
  unfold Repo.unset. induction db as [ | e db IH ]; simpl; [ reflexivity | ].
  destruct (fst e =? key) eqn:He; simpl; [ exact IH | ].
  now rewrite He.
Qed.

Lemma repo_find_unset_other key other (db : Repo.Db) :
  other <> key ->
  find (fun e => fst e =? other) (Repo.unset key db)
  = find (fun e => fst e =? other) db.
Proof.
  intros Hneq. unfold Repo.unset.
  induction db as [ | e db IH ]; simpl; [ reflexivity | ].
  destruct (fst e =? key) eqn:He; simpl.
  - apply String.eqb_eq in He.
    assert (Hother : (fst e =? other) = false)
      by (apply String.eqb_neq; congruence).
    now rewrite Hother.
  - destruct (fst e =? other); [ reflexivity | exact IH ].
Qed.

Lemma repo_set_keyed node (db : Repo.Db) :
  Repo.Keyed db -> Repo.Keyed (Repo.set (Node.uuid node) node db).
Proof.
  intros [Hown Hnodup]. unfold Repo.Keyed.
  destruct (Repo.has (Node.uuid node) db) eqn:Hhas.
  - split.
    + unfold Repo.set. rewrite Hhas. clear Hhas Hnodup.
      induction Hown as [ | e db He _ IH ]; simpl; constructor; auto.
      destruct (fst e =? Node.uuid node); [ reflexivity | exact He ].
    + now rewrite repo_set_existing_keys.
  - destruct (repo_set_fresh (Node.uuid node) node db Hhas)
      as (before & after & Hdb & Hset).
    rewrite Hset. subst db. split.
    + apply Forall_app in Hown as [Hb Ha].
      apply Forall_app. split; [ exact Hb | constructor; auto ].
    + rewrite map_app in *. simpl.
      apply NoDup_Add with (a := Node.uuid node) (l := map fst before ++ map fst after).
      * apply Add_app.
      * split; [ exact Hnodup | ].
        rewrite <- map_app. intros Hin. apply in_map_iff in Hin as (e & He & Hin).
        apply repo_has_false in Hhas.
        rewrite Forall_forall in Hhas. specialize (Hhas e Hin).
        apply String.eqb_neq in Hhas. contradiction.
Qed.

Lemma repo_unset_keyed key (db : Repo.Db) :
  Repo.Keyed db -> Repo.Keyed (Repo.unset key db).
Proof.
  intros [Hown Hnodup]. unfold Repo.Keyed, Repo.unset. split.
  - apply Forall_forall. intros e He. apply filter_In in He as [He _].
    rewrite Forall_forall in Hown. now apply Hown.
  - clear Hown. induction db as [ | e db IH ]; simpl; [ constructor | ].
    inversion Hnodup as [ | k ks Hnotin Hrest ]; subst.
    destruct (negb (fst e =? key)); simpl; [ | now apply IH ].
    constructor; [ | now apply IH ].
    intros Hin. apply Hnotin.
    apply in_map_iff in Hin as (e' & He' & Hin).
    apply filter_In in Hin as [Hin _].
    apply in_map_iff. now exists e'.
Qed.

Lemma repo_getById_lookup (db : Repo.Db) uuid :
  Repo.Keyed db ->
  Repo.getById uuid db
  = match find (fun e => fst e =? uuid) db with
    | Some e => Right (snd e)
    | None => Left (NodeNotFoundError uuid)
    end.
Proof.
  intros [Hown _]. unfold Repo.getById.
  rewrite (repo_find_records db uuid Hown).
  now destruct (find (fun e => fst e =? uuid) db).
Qed.

(** X1. The repository's invariant: starting from the empty [db], or
    from any [db] whose records sit under their own uuid, [add], [update]
    and [delete] keep every record under its own uuid and every key
    unique. *)
Theorem repo_keyed_is_invariant :
  Repo.Keyed []
  /\ (forall node db, Repo.Keyed db -> Repo.Keyed (snd (Repo.add node db)))
  /\ (forall node db, Repo.Keyed db -> Repo.Keyed (snd (Repo.update node db)))
  /\ (forall uuid db, Repo.Keyed db -> Repo.Keyed (snd (Repo.delete uuid db))).
Proof.
  repeat match goal with |- _ /\ _ => split end; simpl.
  - split; constructor.
  - intros. now apply repo_set_keyed.
  - intros. now apply repo_set_keyed.
  - intros. now apply repo_unset_keyed.
Qed.

(** X2. Round trip: in a repository that keeps its records under their
    own uuid, after [add(node)] (or [update(node)]) [getById(node.uuid)]
    returns that node, and [getById] of every other uuid answers as
    before. *)
Theorem repo_add_then_getById node db :
  Repo.Keyed db ->
  Repo.getById (Node.uuid node) (snd (Repo.add node db)) = Right node
  /\ Repo.getById (Node.uuid node) (snd (Repo.update node db)) = Right node
  /\ forall other,
       other <> Node.uuid node ->
       Repo.getById other (snd (Repo.add node db)) = Repo.getById other db.
Proof.
  intros Hkeyed. simpl.
  pose proof (repo_set_keyed node db Hkeyed) as Hkeyed'.
  repeat split.
  - rewrite repo_getById_lookup, repo_find_set_same by assumption. reflexivity.
  - rewrite repo_getById_lookup, repo_find_set_same by assumption. reflexivity.
  - intros other Hother.
    rewrite !repo_getById_lookup, repo_find_set_other by assumption.
    reflexivity.
Qed.

(** X3. [delete] always answers [right], whether or not the uuid was
    stored; in a repository that keeps its records under their own uuid
    the node is gone afterwards ([getById] answers NodeNotFoundError with
    that uuid), the other nodes are untouched, and deleting a uuid that is
    not stored changes nothing. *)
Theorem repo_delete_then_getById uuid db :
  Repo.Keyed db ->
  fst (Repo.delete uuid db) = Right tt
  /\ Repo.getById uuid (snd (Repo.delete uuid db))
     = Left (NodeNotFoundError uuid)
  /\ (forall other,
         other <> uuid ->
         Repo.getById other (snd (Repo.delete uuid db))
         = Repo.getById other db)
  /\ (Repo.getById uuid db = Left (NodeNotFoundError uuid) ->
      snd (Repo.delete uuid db) = db).
Proof.
  intros Hkeyed. simpl.
  pose proof (repo_unset_keyed uuid db Hkeyed) as Hkeyed'.
  repeat split.
  - rewrite repo_getById_lookup, repo_find_unset_same by assumption.
    reflexivity.
  - intros other Hother.
    rewrite !repo_getById_lookup, repo_find_unset_other by assumption.
    reflexivity.
  - rewrite repo_getById_lookup by assumption.
    destruct (find (fun e => fst e =? uuid) db) eqn:Hfind; [ discriminate | ].
    intros _. unfold Repo.unset.
    clear Hkeyed Hkeyed'.
    induction db as [ | e db IH ]; simpl in *; [ reflexivity | ].
    destruct (fst e =? uuid); [ discriminate | ]. simpl.
    now rewrite IH.
Qed.

(** X4. [update] never fails on an unknown node: it stores it. In a
    repository that keeps its records under their own uuid, [add] and
    [update] of a node whose uuid is not stored both answer [right] and
    raise [count] by one, and on a stored uuid they replace the record and
    leave [count] as it was. *)
Theorem repo_update_is_an_upsert node db :
  Repo.Keyed db ->
  fst (Repo.update node db) = Right tt
  /\ snd (Repo.update node db) = snd (Repo.add node db)
  /\ Repo.count (snd (Repo.update node db))
     = if isRight (Repo.getById (Node.uuid node) db)
       then Repo.count db
       else S (Repo.count db).
Proof.
  intros Hkeyed. simpl. repeat split.
  rewrite repo_getById_lookup by assumption.
  unfold Repo.count, Repo.records. rewrite !length_map.
  destruct (Repo.has (Node.uuid node) db) eqn:Hhas.
  - assert (Hfound : exists e, find (fun e => fst e =? Node.uuid node) db = Some e).
    { unfold Repo.has in Hhas. apply existsb_exists in Hhas as (e & Hin & He).
      destruct (find (fun e => fst e =? Node.uuid node) db) eqn:Hfind;
        [ eauto | ].
      apply (find_none _ _ Hfind) in Hin. simpl in Hin. congruence. }
    destruct Hfound as (e & ->). simpl.
    unfold Repo.set. rewrite Hhas. apply length_map.
  - destruct (repo_set_fresh (Node.uuid node) node db Hhas)
      as (before & after & Hdb & Hset).
    apply repo_has_false in Hhas.
    destruct (find (fun e => fst e =? Node.uuid node) db) eqn:Hfind.
    + apply find_some in Hfind as [Hin He].
      rewrite Forall_forall in Hhas. rewrite (Hhas _ Hin) in He. discriminate.
    + simpl. rewrite Hset, Hdb, !length_app. simpl. lia.
Qed.

Lemma slice_of_page {A} (xs : list A) (k p : nat) :
  slice xs (Z.of_nat k * Z.of_nat p) (Z.of_nat k * Z.of_nat p + Z.of_nat p)
  = firstn p (skipn (k * p) xs).
Proof.
  unfold slice, relativeIndex.
  destruct (Z.ltb_spec (Z.of_nat k * Z.of_nat p) 0) as [ Hneg | _ ]; [ lia | ].
  destruct (Z.ltb_spec (Z.of_nat k * Z.of_nat p + Z.of_nat p) 0)
    as [ Hneg | _ ]; [ lia | ].
  replace (Z.to_nat (Z.of_nat k * Z.of_nat p)) with (k * p) by lia.
  replace (Z.to_nat (Z.of_nat k * Z.of_nat p + Z.of_nat p))
    with (k * p + p) by lia.
  destruct (Nat.le_gt_cases (length xs) (k * p)) as [ Hpast | Hin ].
  - rewrite (skipn_all2 xs Hpast), firstn_nil.
    rewrite Nat.min_r by lia. rewrite Nat.min_r by lia.
    rewrite skipn_all. now rewrite Nat.sub_diag.
  - rewrite (Nat.min_l (k * p)) by lia.
    destruct (Nat.le_gt_cases (k * p + p) (length xs)) as [ Hfull | Hshort ].
    + rewrite Nat.min_l by lia. f_equal. lia.
    + rewrite Nat.min_r by lia.
      rewrite !firstn_all2; try reflexivity; rewrite length_skipn; lia.
Qed.

Lemma pages_cover {A} (p : nat) :
  0 < p ->
  forall (c : nat) (xs : list A),
    length xs <= c * p ->
    concat (map (fun k => firstn p (skipn (k * p) xs)) (seq 0 c)) = xs.
Proof.
  intros Hp. induction c as [ | c IH ]; intros xs Hlen.
  - destruct xs; [ reflexivity | simpl in Hlen; lia ].
  - rewrite <- cons_seq, <- seq_shift, map_cons, map_map. simpl concat.
    transitivity (firstn p xs ++ skipn p xs); [ | apply firstn_skipn ].
    f_equal.
    transitivity
      (concat (map (fun k => firstn p (skipn (k * p) (skipn p xs))) (seq 0 c))).
    + f_equal. apply map_ext. intros k.
      rewrite skipn_skipn. f_equal. f_equal. lia.
    + apply IH. rewrite length_skipn. simpl in Hlen. lia.
Qed.

(** X5. Pagination of [filter] with a positive page size: every result
    reports the same page count, [ceil(matches / pageSize)], that is the
    least number of pages of that size that hold all the matches; a page
    holds at most [pageSize] nodes; pages [1 .. pageCount], one after the
    other, are exactly the matching records in order; and every later page
    is empty. *)
Theorem repo_filter_pages_partition {Filters : Type}
    (getNodeFilterPredicate : Filters -> Node.t -> bool)
    (filters : Filters) (pageSize : Z) (db : Repo.Db) :
  (0 < pageSize)%Z ->
  let matches :=
    List.filter (getNodeFilterPredicate filters) (Repo.records db) in
  exists pages : nat,
    (Z.of_nat (length matches) <= Z.of_nat pages * pageSize)%Z
    /\ (forall fewer : nat,
           (Z.of_nat (length matches) <= Z.of_nat fewer * pageSize)%Z ->
           pages <= fewer)
    /\ (forall token,
           Repo.pageCount
             (Repo.filter getNodeFilterPredicate filters pageSize token db)
           = Finite (Z.of_nat pages))
    /\ (forall token,
           (1 <= token)%Z ->
           (Z.of_nat
              (length
                 (Repo.nodes
                    (Repo.filter getNodeFilterPredicate filters pageSize
                       token db)))
            <= pageSize)%Z)
    /\ concat
         (map (fun k =>
                 Repo.nodes
                   (Repo.filter getNodeFilterPredicate filters pageSize
                      (Z.of_nat (S k)) db))
              (seq 0 pages))
       = List.filter (getNodeFilterPredicate filters) (Repo.records db)
    /\ (forall token,
           (Z.of_nat pages < token)%Z ->
           Repo.nodes
             (Repo.filter getNodeFilterPredicate filters pageSize token db)
           = []).
Proof.
  intros Hsize matches.
  set (p := Z.to_nat pageSize).
  assert (Hp : pageSize = Z.of_nat p) by lia.
  assert (Hpos : 0 < p) by lia.
  set (q := ((Z.of_nat (length matches) + pageSize - 1) / pageSize)%Z).
  assert (Hq : (0 <= q)%Z) by (apply Z.div_pos; lia).
  assert (Hcover : length matches <= Z.to_nat q * p).
  { pose proof (Z.div_mod (Z.of_nat (length matches) + pageSize - 1) pageSize)
      as Hdm.
    pose proof (Z.mod_pos_bound
                  (Z.of_nat (length matches) + pageSize - 1) pageSize Hsize)
      as Hmod.
    fold q in Hdm. nia. }
  assert (Hpage : forall k,
             Repo.nodes
               (Repo.filter getNodeFilterPredicate filters pageSize
                  (Z.of_nat (S k)) db)
             = firstn p (skipn (k * p) matches)).
  { intros k. unfold Repo.filter; cbn [Repo.nodes]. fold matches.
    replace ((Z.of_nat (S k) - 1) * pageSize)%Z
      with (Z.of_nat k * Z.of_nat p)%Z by lia.
    replace (Z.of_nat k * Z.of_nat p + pageSize)%Z
      with (Z.of_nat k * Z.of_nat p + Z.of_nat p)%Z by lia.
    apply slice_of_page. }
  exists (Z.to_nat q). repeat split.
  - nia.
  - intros fewer Hfewer.
    pose proof (Z.div_mod (Z.of_nat (length matches) + pageSize - 1) pageSize)
      as Hdm.
    pose proof (Z.mod_pos_bound
                  (Z.of_nat (length matches) + pageSize - 1) pageSize Hsize)
      as Hmod.
    fold q in Hdm. nia.
  - intros token. unfold Repo.filter; cbn [Repo.pageCount]. fold matches.
    unfold ceilOfQuotient.
    destruct (Z.eqb_spec pageSize 0); [ lia | ].
    destruct (Z.ltb_spec 0 pageSize); [ | lia ].
    fold q. f_equal. lia.
  - intros token Htoken.
    replace token with (Z.of_nat (S (Z.to_nat (token - 1)))) by lia.
    rewrite Hpage. pose proof (firstn_le_length p (skipn (Z.to_nat (token - 1) * p) matches)).
    lia.
  - rewrite (map_ext _ _ Hpage). now apply pages_cover.
  - intros token Htoken.
    replace token with (Z.of_nat (S (Z.to_nat (token - 1)))) by lia.
    rewrite Hpage. rewrite skipn_all2; [ apply firstn_nil | ].
    assert (Z.to_nat q <= Z.to_nat (token - 1)) by lia. nia.
Qed.

(* ------------------------------------------------------------------ *)
(** ** Manual runs and the built-in move                               *)
(* ------------------------------------------------------------------ *)

Section ActionFacts.
Context `{Statics} {S : Type} `{NodeService S} `{ActionRepository S}
        `{ActionCatalog S}.
Variable promiseAll : forall A : Type, list (M S A) -> M S (list A).

(** X16. [runAction] on a stored action runs it with the caller's
    context, the target uuids and the parameters in the order the action
    declares ([ctx, uuids, params]); the promise resolves when the action
    resolves to nothing and rejects with the action's own error when it
    resolves to one, and the world is as the action left it. *)
Theorem runAction_propagates_the_action_result
    authCtx uuid uuids params w action :
  repository_get uuid (store w) = Some action ->
  runAction authCtx uuid uuids params w
  = (match fst (Action.run action authCtx uuids params w) with
     | Some error => Thrown error
     | None => Returned tt
     end,
     snd (Action.run action authCtx uuids params w)).
Proof.
  intros Hstored.
  unfold runAction, ActionService_run, ActionService_get, bind, ret. simpl.
  rewrite Hstored.
  destruct (Action.run action authCtx uuids params w) as [[ e | ] w'];
    reflexivity.
Qed.

(** X17. A built-in action is listed by [list], but [run] looks only
    in the repository: unless the repository holds an action under the
    built-in's uuid, running a listed built-in raises "not found". *)
Theorem builtin_actions_are_listed_but_not_found
    principal action params uuids w :
  In action builtinActions ->
  repository_get (Action.uuid action) (store w) = None ->
  In action (fst (ActionService_list principal w))
  /\ ActionService_run principal (Action.uuid action) params uuids w
     = (Thrown (Error ("Action " ++ Action.uuid action ++ " not found")), w).
Proof.
  intros Hbuiltin Hmissing. split.
  - unfold ActionService_list. simpl. apply in_or_app. now left.
  - unfold ActionService_run, ActionService_get, bind, ret. simpl.
    now rewrite Hmissing.
Qed.


End ActionFacts.

(* ------------------------------------------------------------------ *)
(** ** The HTTP handlers                                               *)
(* ------------------------------------------------------------------ *)

Lemma splitOn_not_empty sep s : splitOn sep s <> [].
Proof.
  destruct s as [ | c rest ]; simpl; [ discriminate | ].
  destruct (Ascii.eqb c sep); [ discriminate | ].
  destruct (splitOn sep rest); discriminate.
Qed.

(** Splitting loses nothing: the pieces joined by the separator are the
    string again. *)
Lemma joinWith_splitOn sep s : joinWith sep (splitOn sep s) = s.
Proof.
  induction s as [ | c rest IH ]; simpl; [ reflexivity | ].
  destruct (Ascii.eqb_spec c sep) as [ -> | Hc ].
  - pose proof (splitOn_not_empty sep rest) as Hne.
    destruct (splitOn sep rest) as [ | piece pieces ]; [ contradiction | ].
    simpl in *. now rewrite IH.
  - pose proof (splitOn_not_empty sep rest) as Hne.
    destruct (splitOn sep rest) as [ | piece pieces ]; [ contradiction | ].
    destruct pieces as [ | next pieces ]; simpl in *; now rewrite <- IH.
Qed.

Section HandlerFacts.
Context `{Statics} {S : Type} `{NodeService S} `{ActionRepository S}.
Variable Reply : Type.
Variable sendOK : option Body -> Reply.
Variable sendBadRequest : string -> Reply.
Variable processError : Failure -> Reply.

(** X19. [deleteHandler] answers OK whatever [delete] returned. In
    particular, when the caller may not write to the parent of a stored
    node (or the parent cannot be resolved), [delete] fails with that
    error and the node is still in the store, yet the handler sends OK,
    where [updateHandler] sends the error of a refused update. *)
Theorem deleteHandler_answers_OK_for_a_refused_delete
    authCtx uuid w node e :
  nodeService_get uuid (store w) = Right node ->
  isFolder node = false ->
  FolderFailure authCtx (Node.parent node) Write (store w) e ->
  fst (delete authCtx uuid w) = Left e
  /\ fst (nodes_deleteHandler sendOK authCtx uuid w) = sendOK None
  /\ store (snd (nodes_deleteHandler sendOK authCtx uuid w)) = store w
  /\ fst (nodes_updateHandler sendOK processError authCtx uuid
            Partial.empty w)
     = processError (ServiceError ForbiddenError).
Proof.
  intros Hnode Hfile Hfail. apply resolveFolder_failure in Hfail.
  unfold nodes_deleteHandler, nodes_updateHandler, delete, update, bind, ret,
    query.
  simpl. rewrite Hnode. simpl. rewrite Hfile. simpl.
  rewrite !getFolderWithPermission_run. simpl. rewrite Hfail. simpl.
  repeat split.
Qed.

(** X20. [createHandler] validates before it calls the service: without
    a type, or without metadata or a title (absent or empty), it answers
    BadRequest and the world is untouched. Otherwise it creates a metanode
    for the type "Metanode" and a folder for every other type, and answers
    [processError] with the service's error or OK without a body. *)
Theorem createHandler_validates_then_dispatches authCtx type metadata w :
  (truthy type = false ->
   nodes_createHandler sendOK sendBadRequest processError authCtx type
     metadata w
   = (sendBadRequest "{ type } not given", w))
  /\ (truthy type = true ->
      truthy (match metadata with
              | Some md => Partial.title md
              | None => None
              end) = false ->
      nodes_createHandler sendOK sendBadRequest processError authCtx type
        metadata w
      = (sendBadRequest "{ title } not given", w))
  /\ (forall md,
         truthy type = true ->
         metadata = Some md ->
         truthy (Partial.title md) = true ->
         let service :=
           if strictEq type "Metanode"
           then createMetanode authCtx md
           else createFolder authCtx md in
         nodes_createHandler sendOK sendBadRequest processError authCtx type
           metadata w
         = (match fst (service w) with
            | Left e => processError (ServiceError e)
            | Right _ => sendOK None
            end,
            snd (service w))).
Proof.
  unfold nodes_createHandler, processEither, bind, ret.
  repeat match goal with |- _ /\ _ => split end.
  - intros ->. reflexivity.
  - intros -> Htitle. simpl.
    destruct metadata as [ md | ]; [ | reflexivity ].
    now rewrite Htitle.
  - intros md -> -> ->. simpl.
    destruct (strictEq type "Metanode");
      match goal with
      | |- context [let (_, _) := ?call in _] => destruct call as [[ e | n ] w']
      end; reflexivity.
Qed.

(** X21. [runHandler] answers BadRequest without touching the world when
    the query has no [uuids]; with [uuids] given and no action stored under
    the uuid, the error raised by the run is caught and handed to
    [processError], and the world is untouched. *)
Theorem runHandler_reports_an_unknown_action authCtx uuid query w :
  (truthy (lookupParam query "uuids") = false ->
   actions_runHandler sendOK sendBadRequest processError authCtx uuid query w
   = (sendBadRequest "Missing uuids query parameter", w))
  /\ (truthy (lookupParam query "uuids") = true ->
      repository_get uuid (store w) = None ->
      actions_runHandler sendOK sendBadRequest processError authCtx uuid
        query w
      = (processError (Raised (Error ("Action " ++ uuid ++ " not found"))),
         w)).
Proof.
  unfold actions_runHandler, runAction, ActionService_run, ActionService_get,
    bind, ret.
  split.
  - intros ->. reflexivity.
  - intros -> Hmissing. simpl. now rewrite Hmissing.
Qed.

End HandlerFacts.

(* ------------------------------------------------------------------ *)
(** ** The properties on the concrete installation                     *)
(* ------------------------------------------------------------------ *)

Import Fixture.

(** C2, as first stated, fails on the Root folder: a principal who is not
    admin and whose email is the owner recorded on the Root folder is
    denied Write there, although the folder's sets grant everything. *)
Lemma root_owner_is_denied_write :
  isAdmin (principal alice) = false
  /\ isFolder (rootOwnedBy "alice@example.com") = true
  /\ UserPrincipal.email (principal alice)
     = Node.owner (rootOwnedBy "alice@example.com")
  /\ assertPermission alice (rootOwnedBy "alice@example.com") Write
     = Left ForbiddenError
  /\ decision_of (assertPermission alice (rootOwnedBy "alice@example.com") Write)
     = Denied.
Proof. repeat split. Qed.

Lemma owner_granted_outside_root_witness :
  assertPermission alice (Node.with_permissions F noPermissions) Write
  = Right tt.
Proof.
  refine (proj1 (owner_granted_outside_root alice F Write noPermissions
                   _ _ _) _); try reflexivity.
  left. reflexivity.
Defined.

Lemma grants_are_monotonic_witness :
  assertPermission bob
    (Node.with_permissions F (grantAnonymous Write (Node.permissions F))) Read
  = Right tt
  /\ assertPermission bob
       (Node.with_permissions F (grantGroup Write (Node.permissions F))) Read
     = Right tt
  /\ assertPermission bob
       (Node.with_permissions F (grantAuthenticated Write (Node.permissions F)))
       Read
     = Right tt.
Proof.
  apply (grants_are_monotonic bob F Read Write). reflexivity.
Defined.

(** Scenario A of section 8 on the guard: bob, in group [eng], may read
    [F]; carol may not. *)
Example scenario_A :
  fst (get bob "F" world0) = Right F
  /\ fst (get carol "F" world0) = Left ForbiddenError.
Proof. split; reflexivity. Qed.

(** Deleting [N]: carol has no Write on [F], so her call fails before the
    store is asked and nothing is published; alice owns [F], so her call
    reaches [nodeService.delete] and the event follows its success. *)
Example delete_publishes_after_store :
  delete carol "N" world0
  = (Left ForbiddenError,
     mkWorld db0 [] [(CallGet "N", true); (CallGet "F", true)])
  /\ delete alice "N" world0
     = (Right tt,
        mkWorld [root; system; F; G; orphan]
          [NodeDeletedEvent "alice@example.com" "N"]
          [(CallGet "N", true); (CallGet "F", true); (CallDelete "N", true)]).
Proof. split; reflexivity. Qed.

(** C5. [duplicate] of the file [N] by an admin succeeds, the store
    holds the new node, and no event has been published; [copy] of the
    same node, next to it, publishes [NodeCreated] for the new node. *)
Theorem duplicate_succeeds_without_event :
  exists node w',
    duplicate admin "N" world0 = (Right node, w')
    /\ store w' = db0 ++ [node]
    /\ In (CallDuplicate "N", true) (journal w')
    /\ published w' = []
    /\ exists node2 w2,
         copy admin "N" "F" world0 = (Right node2, w2)
         /\ published w2 = [NodeCreatedEvent "root@antbox.io" node2].
Proof.
  do 2 eexists. split; [ reflexivity | ].
  repeat split.
  - simpl. auto.
  - do 2 eexists. split; reflexivity.
Qed.

Lemma update_move_without_write_is_forbidden_witness :
  exists w',
    update alice "N" (moveTo "G") (Some true) world0 = (Left ForbiddenError, w')
    /\ onlyGets world0 w'
    /\ store w' = store world0
    /\ nodeService_get "N" (store w') = Right N
    /\ published w' = published world0.
Proof.
  apply (update_move_without_write_is_forbidden alice "N" (moveTo "G")
           (Some true) world0 N "G" G);
    try reflexivity.
  discriminate.
Defined.

(** C7. The system folder is a reserved parent and [createFolder]
    refuses it with BadRequest, but [createMetanode] with the same parent
    goes through: the metanode is created under the system folder and its
    creation is published. *)
Theorem createMetanode_accepts_system_parent :
  isSystemFolder (Some "--system--") = true
  /\ createFolder admin (moveTo "--system--") world0
     = (Left (BadRequestError "Cannot create folders in system folder"), world0)
  /\ exists node w',
       createMetanode admin (moveTo "--system--") world0 = (Right node, w')
       /\ Node.parent node = "--system--"
       /\ Node.variant node = MetanodeV
       /\ store w' = db0 ++ [node]
       /\ published w' = [NodeCreatedEvent "root@antbox.io" node].
Proof.
  split; [ reflexivity | ]. split; [ reflexivity | ].
  do 2 eexists. split; [ reflexivity | ].
  repeat split.
Qed.



(** The in-memory node service builds folders from the metadata. *)
Lemma fixture_createFolder_honours : createFolderHonoursMetadata.
Proof.
  intros md s n s'. simpl. unfold add. intros [= <- _].
  unfold fromMetadata; simpl.
  repeat split; intros x Hx; rewrite Hx; reflexivity.
Defined.

Lemma createFolder_stamps_owner_group_permissions_witness :
  exists node w',
    createFolder alice intruding world0 = (Right node, w')
    /\ Node.owner node = "alice@example.com"
    /\ Node.group node = "eng"
    /\ Node.permissions node = Node.permissions F.
Proof.
  do 2 eexists. split; [ cbv; reflexivity | ].
  destruct (createFolder_stamps_owner_group_permissions
              (H := statics) alice intruding world0 _ _
              fixture_createFolder_honours eq_refl)
    as (parent & requested & Hparent & _ & _ & _ & _ & Ho & Hg & Hp).
  injection Hparent as <-.
  repeat split; assumption.
Defined.

Lemma update_masks_parent_failure_as_forbidden_witness :
  fst (update alice "orphan" Partial.empty None world0) = Left ForbiddenError
  /\ onlyGets world0 (snd (update alice "orphan" Partial.empty None world0))
  /\ store (snd (update alice "orphan" Partial.empty None world0)) = store world0
  /\ published (snd (update alice "orphan" Partial.empty None world0))
     = published world0.
Proof.
  apply (update_masks_parent_failure_as_forbidden alice "orphan"
           Partial.empty None world0 orphan (NodeNotFoundError "gone"));
    try reflexivity.
  left. apply ParentMissing. reflexivity.
Defined.

(* ------------------------------------------------------------------ *)
(** ** Further runs on the concrete installation                       *)
(* ------------------------------------------------------------------ *)

Import Installed.

Lemma stored_is_keyed : Repo.Keyed stored.
Proof.
  split.
  - repeat constructor.
  - repeat constructor; simpl; intuition discriminate.
Defined.

(** Keys that are array indices are enumerated first, in numeric order,
    whatever the order of insertion. *)
Example records_follow_property_order :
  let db1 := snd (Repo.add (named "007") []) in
  let db2 := snd (Repo.add (named "b") db1) in
  let db3 := snd (Repo.add (named "10") db2) in
  let db4 := snd (Repo.add (named "9") db3) in
  map Node.uuid (Repo.records db4) = ["9"; "10"; "007"; "b"].
Proof. reflexivity. Qed.

(** Without the invariant the round trips fail: a record stored under a
    key that is not its uuid survives [delete] of its uuid. *)
Example delete_needs_keyed :
  Repo.getById "N" (snd (Repo.delete "N" [("elsewhere", N)])) = Right N.
Proof. reflexivity. Qed.

Lemma repo_add_then_getById_witness :
  Repo.getById "G" (snd (Repo.add G stored)) = Right G
  /\ Repo.getById "G" (snd (Repo.update G stored)) = Right G
  /\ forall other,
       other <> "G" ->
       Repo.getById other (snd (Repo.add G stored)) = Repo.getById other stored.
Proof. exact (repo_add_then_getById G stored stored_is_keyed). Defined.

Lemma repo_delete_then_getById_witness :
  fst (Repo.delete "N" stored) = Right tt
  /\ Repo.getById "N" (snd (Repo.delete "N" stored))
     = Left (NodeNotFoundError "N")
  /\ (forall other,
         other <> "N" ->
         Repo.getById other (snd (Repo.delete "N" stored))
         = Repo.getById other stored)
  /\ (Repo.getById "N" stored = Left (NodeNotFoundError "N") ->
      snd (Repo.delete "N" stored) = stored).
Proof. exact (repo_delete_then_getById "N" stored stored_is_keyed). Defined.

Lemma repo_update_is_an_upsert_witness :
  fst (Repo.update G stored) = Right tt
  /\ snd (Repo.update G stored) = snd (Repo.add G stored)
  /\ Repo.count (snd (Repo.update G stored)) = 3.
Proof. exact (repo_update_is_an_upsert G stored stored_is_keyed). Defined.

Lemma repo_filter_pages_partition_witness :
  exists pages : nat,
    (Z.of_nat (length (List.filter (everyNode tt) (Repo.records stored)))
     <= Z.of_nat pages * 1)%Z
    /\ (forall fewer : nat,
           (Z.of_nat (length (List.filter (everyNode tt) (Repo.records stored)))
            <= Z.of_nat fewer * 1)%Z ->
           pages <= fewer)
    /\ (forall token,
           Repo.pageCount (Repo.filter everyNode tt 1 token stored)
           = Finite (Z.of_nat pages))
    /\ (forall token,
           (1 <= token)%Z ->
           (Z.of_nat
              (length (Repo.nodes (Repo.filter everyNode tt 1 token stored)))
            <= 1)%Z)
    /\ concat
         (map (fun k =>
                 Repo.nodes
                   (Repo.filter everyNode tt 1 (Z.of_nat (S k)) stored))
              (seq 0 pages))
       = List.filter (everyNode tt) (Repo.records stored)
    /\ (forall token,
           (Z.of_nat pages < token)%Z ->
           Repo.nodes (Repo.filter everyNode tt 1 token stored) = []).
Proof.
  apply (repo_filter_pages_partition everyNode tt 1 stored). reflexivity.
Defined.

(** Pages outside [1 .. pageCount] and page sizes that are not positive. *)
Example filter_edge_pages :
  Repo.nodes (Repo.filter everyNode tt 1 2 stored) = [N]
  /\ Repo.nodes (Repo.filter everyNode tt 1 0 stored) = []
  /\ Repo.nodes (Repo.filter everyNode tt 1 (-1) stored) = [F]
  /\ Repo.pageCount (Repo.filter everyNode tt 0 1 stored) = PositiveInfinity
  /\ Repo.pageCount (Repo.filter everyNode tt 0 1 []) = NotANumber
  /\ Repo.pageCount (Repo.filter everyNode tt (-5) 1 stored) = NegativeZero.
Proof. repeat split. Qed.

Lemma list_hides_unreadable_folders_witness :
  exists children,
    grantedOn bob (nullish None ROOT_FOLDER_UUID) Read (store world0)
    /\ nodeService_list (nullish None ROOT_FOLDER_UUID) (store world0)
       = Right children
    /\ [root; F]
       = filter (fun n => negb (isFolder n)
                          || isRight (assertPermission bob n Read))
           children
    /\ forall n,
         In n [root; F]
         <-> In n children
             /\ (isFolder n = true -> assertPermission bob n Read = Right tt).
Proof.
  apply (list_hides_unreadable_folders bob None world0 [root; F]).
  reflexivity.
Defined.

Lemma update_event_names_the_folder_owner_witness :
  published (snd (update admin "F" (rename "eng") None world0))
  = [NodeUpdatedEvent "alice@example.com" "F" (rename "eng")].
Proof.
  exact (update_event_names_the_folder_owner admin "F" (rename "eng") None
           world0 F eq_refl).
Defined.

Lemma update_of_a_folder_ignores_merge_witness :
  update alice "F" (rename "eng") (Some true) world0
  = update alice "F" (rename "eng") None world0
  /\ forall entry,
       In entry
          (journal (snd (update alice "F" (rename "eng") (Some true) world0))) ->
       In entry (journal world0)
       \/ isMutation (fst entry) = false
       \/ fst entry = CallUpdate "F" (rename "eng") None.
Proof.
  exact (update_of_a_folder_ignores_merge alice "F" (rename "eng") (Some true)
           world0 F eq_refl eq_refl).
Defined.

Lemma root_is_written_by_admins_only_witness :
  (forall metadata,
      Partial.parent metadata = None
      \/ Partial.parent metadata = Some ROOT_FOLDER_UUID ->
      fst (createMetanode alice metadata world0) = Left ForbiddenError
      /\ store (snd (createMetanode alice metadata world0)) = store world0
      /\ isLeft (fst (createFolder alice metadata world0)) = true
      /\ store (snd (createFolder alice metadata world0)) = store world0)
  /\ (forall metadata merge,
         fst (update alice ROOT_FOLDER_UUID metadata merge world0)
         = Left ForbiddenError
         /\ store (snd (update alice ROOT_FOLDER_UUID metadata merge world0))
            = store world0)
  /\ fst (delete alice ROOT_FOLDER_UUID world0) = Left ForbiddenError
  /\ store (snd (delete alice ROOT_FOLDER_UUID world0)) = store world0.
Proof.
  exact (root_is_written_by_admins_only alice world0 root
           eq_refl eq_refl eq_refl eq_refl).
Defined.

Lemma runAction_propagates_the_action_result_witness :
  runAction (H1 := repositoryWithMove) alice "move_to_folder" ["N"]
    [("destination", "F")] world0
  = (match
       fst (Action.run moveAction alice ["N"] [("destination", "F")] world0)
     with
     | Some error => Thrown error
     | None => Returned tt
     end,
     snd (Action.run moveAction alice ["N"] [("destination", "F")] world0)).
Proof.
  exact (runAction_propagates_the_action_result (H1 := repositoryWithMove)
           alice "move_to_folder" ["N"] [("destination", "F")] world0
           moveAction eq_refl).
Defined.

Lemma builtin_actions_are_listed_but_not_found_witness :
  In moveAction (fst (ActionService_list alice world0))
  /\ ActionService_run alice (Action.uuid moveAction) ["N"]
       [("destination", "G")] world0
     = (Thrown (Error ("Action " ++ Action.uuid moveAction ++ " not found")),
        world0).
Proof.
  apply (builtin_actions_are_listed_but_not_found alice moveAction ["N"]
           [("destination", "G")] world0).
  - left. reflexivity.
  - reflexivity.
Defined.



(** The move goes through when the caller may write to both folders. *)
Example moveToFolder_moves_when_allowed :
  fst (runAction (H1 := repositoryWithMove) admin "move_to_folder" ["N"]
         [("destination", "G")] world0)
  = Returned tt
  /\ option_map Node.parent
       (find (fun n => Node.uuid n =? "N")
          (store (snd (runAction (H1 := repositoryWithMove) admin
                         "move_to_folder" ["N"] [("destination", "G")]
                         world0))))
     = Some "G".
Proof. split; reflexivity. Qed.

Lemma deleteHandler_answers_OK_for_a_refused_delete_witness :
  fst (delete carol "N" world0) = Left ForbiddenError
  /\ fst (nodes_deleteHandler OK carol "N" world0) = OK None
  /\ store (snd (nodes_deleteHandler OK carol "N" world0)) = store world0
  /\ fst (nodes_updateHandler OK Failed carol "N" Partial.empty world0)
     = Failed (ServiceError ForbiddenError).
Proof.
  apply (deleteHandler_answers_OK_for_a_refused_delete Reply OK Failed
           carol "N" world0 N ForbiddenError); try reflexivity.
  apply ParentUnauthorized with (n := F); reflexivity.
Defined.

(** A request to create a node of type "File" creates a folder. *)
Example createHandler_makes_folders_of_other_types :
  exists node w',
    nodes_createHandler OK BadRequest Failed admin (Some "File")
      (Some (Partial.mk None (Some "notes") (Some "F") None None None None))
      world0
    = (OK None, w')
    /\ store w' = db0 ++ [node]
    /\ Node.variant node = FolderV.
Proof. do 2 eexists. split; [ cbv; reflexivity | split; reflexivity ]. Qed.

(** The page count is the ceiling, not one more than the floor. *)
Example filter_page_count_is_the_ceiling :
  Repo.pageCount (Repo.filter everyNode tt 2 1 stored) = Finite 1
  /\ Repo.pageCount (Repo.filter everyNode tt 1 1 stored) = Finite 2
  /\ Repo.pageCount (Repo.filter everyNode tt 3 1 stored) = Finite 1
  /\ Repo.pageCount (Repo.filter everyNode tt 2 1 []) = Finite 0.
Proof. repeat split. Qed.
